(** * app_colorvision: the frame-analysis endpoint of [app.py]

    A shallow embedding of the Flask application in [src/app.py] and the
    properties of its request/response contract.

    The application has two views, [index] and [analyze_frame], and one
    module-level variable written at import time, [client].  The view
    [analyze_frame] is a straight line of guarded steps with early returns:
    client check, field extraction, presence check, base64 decode, image
    materialisation, prompt construction, model call, JSON parse.

    Layout of the development:
    - [Py]: the fragment of Python the handler relies on (strings as code
      points, JSON-shaped objects, truthiness, exceptions and their
      classes, [str.strip], [str.split], [dict.get]);
    - [Runtime]: the interface of the third-party code the handler calls
      (base64, PIL, google-genai, json), kept abstract;
    - the view functions, written in a small monad for global state,
      printed output, early [return] and exceptions;
    - [Base64], [Json], [Fake]: reference implementations of the library
      calls, used to run the handler on concrete requests, and [Sample],
      the requests of these runs;
    - the lemmas on the steps of the view, the contract of the endpoint,
      and its concrete runs. *)

From Stdlib Require Import ZArith NArith List String Ascii Bool Lia.
From Stdlib Require Import PrimFloat Uint63 FloatOps.
From Stdlib Require Import DecimalString.
From Stdlib Require Strings.Byte.
Import ListNotations.

#[local] Set Warnings "-register-all,-inexact-float".

(* ===================================================================== *)
(** * Python values and library-independent semantics *)
(* ===================================================================== *)

Module Py.

(** ** Strings

    A Python [str] is a sequence of Unicode code points. *)

Definition str := list N.

(** Source literals are written as UTF-8 text and decoded to code points. *)
Fixpoint utf8_decode (bs : list N) : str :=
  match bs with
  | [] => []
  | b0 :: r0 =>
      if (b0 <? 0x80)%N then b0 :: utf8_decode r0
      else if (b0 <? 0xE0)%N then
        match r0 with
        | b1 :: r1 =>
            ((b0 - 0xC0) * 0x40 + (b1 - 0x80))%N :: utf8_decode r1
        | _ => []
        end
      else if (b0 <? 0xF0)%N then
        match r0 with
        | b1 :: b2 :: r2 =>
            ((b0 - 0xE0) * 0x1000 + (b1 - 0x80) * 0x40 + (b2 - 0x80))%N
              :: utf8_decode r2
        | _ => []
        end
      else
        match r0 with
        | b1 :: b2 :: b3 :: r3 =>
            ((b0 - 0xF0) * 0x40000 + (b1 - 0x80) * 0x1000
             + (b2 - 0x80) * 0x40 + (b3 - 0x80))%N :: utf8_decode r3
        | _ => []
        end
  end.

Definition u (s : string) : str :=
  utf8_decode (map N_of_ascii (list_ascii_of_string s)).

(** The characters the handler names explicitly. *)
Definition comma : N := 44.
Definition dquote : N := 34.
Definition newline : N := 10.

Fixpoint str_eqb (a b : str) : bool :=
  match a, b with
  | [], [] => true
  | x :: a', y :: b' => (x =? y)%N && str_eqb a' b'
  | _, _ => false
  end.

(** [str.isspace] on one character: the code points whose bidirectional
    class is WS, B or S, or whose category is Zs. *)
Definition isspace (c : N) : bool :=
  ((0x09 <=? c) && (c <=? 0x0D) || (0x1C <=? c) && (c <=? 0x20)
   || (c =? 0x85) || (c =? 0xA0) || (c =? 0x1680)
   || (0x2000 <=? c) && (c <=? 0x200A)
   || (c =? 0x2028) || (c =? 0x2029) || (c =? 0x202F)
   || (c =? 0x205F) || (c =? 0x3000))%N.

Fixpoint lstrip (s : str) : str :=
  match s with
  | c :: s' => if isspace c then lstrip s' else s
  | [] => []
  end.

Definition rstrip (s : str) : str := rev (lstrip (rev s)).

(** [s.strip()] *)
Definition strip (s : str) : str := rstrip (lstrip s).

(** [s.partition(sep)] for a one-character separator: the text before the
    first occurrence and the text after it, if there is one. *)
Fixpoint break_at (sep : N) (s : str) : option (str * str) :=
  match s with
  | [] => None
  | c :: s' =>
      if (c =? sep)%N then Some ([], s')
      else match break_at sep s' with
           | Some (h, t) => Some (c :: h, t)
           | None => None
           end
  end.

(** [s.split(sep, maxsplit)] for a one-character separator. *)
Fixpoint split (sep : N) (maxsplit : nat) (s : str) : list str :=
  match maxsplit with
  | O => [s]
  | S k =>
      match break_at sep s with
      | Some (h, t) => h :: split sep k t
      | None => [s]
      end
  end.

(** Decimal rendering of a count, as [%d] prints it. *)
Definition decimal (n : nat) : str :=
  u (NilEmpty.string_of_uint (Nat.to_uint n)).

(** ** Objects

    The objects a JSON document decodes to.  A [dict] keeps its items in
    insertion order; lookup takes the first item with the key (keys of a
    Python dict are unique).  A [float] is an IEEE 754 binary64 number. *)

Inductive pyval : Type :=
| PNone
| PBool (b : bool)
| PInt (z : Z)
| PFloat (f : float)
| PStr (s : str)
| PList (l : list pyval)
| PDict (d : list (str * pyval)).

Fixpoint dict_get (k : str) (d : list (str * pyval)) : option pyval :=
  match d with
  | [] => None
  | (k', v) :: d' => if str_eqb k k' then Some v else dict_get k d'
  end.

(** [type(v).__name__] *)
Definition type_name (v : pyval) : str :=
  match v with
  | PNone => u "NoneType"
  | PBool _ => u "bool"
  | PInt _ => u "int"
  | PFloat _ => u "float"
  | PStr _ => u "str"
  | PList _ => u "list"
  | PDict _ => u "dict"
  end.

(** [bool(v)]: the truth value tested by [if] and [not]. *)
Definition truthy (v : pyval) : bool :=
  match v with
  | PNone => false
  | PBool b => b
  | PInt z => negb (z =? 0)%Z
  | PFloat f => negb (PrimFloat.eqb f PrimFloat.zero)
  | PStr s => match s with [] => false | _ => true end
  | PList l => match l with [] => false | _ => true end
  | PDict d => match d with [] => false | _ => true end
  end.

(** ** Exceptions

    Only subclasses of [Exception] are modelled: the handler's
    [except Exception] clauses are about these.  [bases] lists the proper
    ancestors of a class up to [Exception]. *)

Inductive exn_class : Type :=
| Exception
| AttributeError
| TypeError
| ValueError
| NameError
| UnboundLocalError
| OSError
| binascii_Error
| JSONDecodeError
| UnidentifiedImageError
| APIError
| ClientError
| ServerError
| HTTPException
| BadRequest
| UnsupportedMediaType
| OtherError (name : string).

Definition bases (c : exn_class) : list exn_class :=
  match c with
  | Exception => []
  | UnboundLocalError => [NameError; Exception]
  | binascii_Error | JSONDecodeError => [ValueError; Exception]
  | UnidentifiedImageError => [OSError; Exception]
  | ClientError | ServerError => [APIError; Exception]
  | BadRequest | UnsupportedMediaType => [HTTPException; Exception]
  | _ => [Exception]
  end.

Definition exn_class_eqb (a b : exn_class) : bool :=
  match a, b with
  | Exception, Exception | AttributeError, AttributeError
  | TypeError, TypeError | ValueError, ValueError | NameError, NameError
  | UnboundLocalError, UnboundLocalError | OSError, OSError
  | binascii_Error, binascii_Error | JSONDecodeError, JSONDecodeError
  | UnidentifiedImageError, UnidentifiedImageError | APIError, APIError
  | ClientError, ClientError | ServerError, ServerError
  | HTTPException, HTTPException | BadRequest, BadRequest
  | UnsupportedMediaType, UnsupportedMediaType => true
  | OtherError n, OtherError m => String.eqb n m
  | _, _ => false
  end.

(** An exception object: its class and the text [str(e)] gives. *)
Record exn : Type := mkExn { cls : exn_class; msg : str }.

(** [isinstance(e, c)] *)
Definition isinstance (e : exn) (c : exn_class) : bool :=
  exn_class_eqb (cls e) c || existsb (exn_class_eqb c) (bases (cls e)).

(** The result of evaluating an expression that may raise. *)
Inductive result (A : Type) : Type :=
| Ok (a : A)
| Raise (e : exn).
Arguments Ok {A} a.
Arguments Raise {A} e.

(** ** Attribute access and the methods the handler calls *)

(** Looking up a method the object's type does not have. *)
Definition no_attribute (v : pyval) (name : string) : exn :=
  mkExn AttributeError
        (u "'" ++ type_name v ++ u "' object has no attribute '"
           ++ u name ++ u "'").

(** [v.get(key, default)]; only [dict] has the method. *)
Definition py_get (v : pyval) (key : str) (default : pyval) : result pyval :=
  match v with
  | PDict d =>
      Ok (match dict_get key d with Some x => x | None => default end)
  | _ => Raise (no_attribute v "get")
  end.

(** [v.strip()]; only [str] has the method. *)
Definition py_strip (v : pyval) : result str :=
  match v with
  | PStr s => Ok (strip s)
  | _ => Raise (no_attribute v "strip")
  end.

(** [v.split(sep, maxsplit)]; only [str] has the method. *)
Definition py_split (v : pyval) (sep : N) (maxsplit : nat)
  : result (list str) :=
  match v with
  | PStr s => Ok (split sep maxsplit s)
  | _ => Raise (no_attribute v "split")
  end.

(** [a, b = l]: unpacking into two targets. *)
Definition unpack2 (l : list str) : result (str * str) :=
  match l with
  | [a; b] => Ok (a, b)
  | _ :: _ :: _ :: _ =>
      Raise (mkExn ValueError (u "too many values to unpack (expected 2)"))
  | _ =>
      Raise (mkExn ValueError
                   (u "not enough values to unpack (expected 2, got "
                      ++ decimal (List.length l) ++ u ")"))
  end.

(** How an f-string renders an optional string ([None] prints as its
    name). *)
Definition format_opt (t : option str) : str :=
  match t with
  | Some s => s
  | None => u "None"
  end.

End Py.
Import Py.

(* ===================================================================== *)
(** * The libraries the application calls *)
(* ===================================================================== *)

(** The third-party code behind the handler: [genai.Client()] and
    [client.models.generate_content] (google-genai), [render_template]
    (Flask), [base64.b64decode], [Image.open] and [Image.convert] (PIL),
    [json.loads].  Each call either returns or raises; nothing else is
    assumed about it. *)
Class Runtime : Type := {
  Client : Type;
  Image : Type;
  GenerateContentResponse : Type;
  (** [genai.Client()], reading the credential from the environment *)
  genai_Client : result Client;
  (** [render_template(name)] *)
  render_template : str -> result str;
  (** [base64.b64decode(s)] on a [str] argument *)
  b64decode : str -> result (list Byte.byte);
  (** [Image.open(io.BytesIO(data))] *)
  Image_open : list Byte.byte -> result Image;
  (** [img.convert(mode)] *)
  Image_convert : Image -> str -> result Image;
  (** [client.models.generate_content(model=, contents=[prompt, img],
      config=GenerateContentConfig(response_mime_type=))] *)
  generate_content :
    Client -> str -> str -> Image -> str -> result GenerateContentResponse;
  (** the property [response.text] *)
  response_text : GenerateContentResponse -> result (option str);
  (** [json.loads(s)] *)
  json_loads : option str -> result pyval
}.

(* ===================================================================== *)
(** * The application *)
(* ===================================================================== *)

(** What a view hands back to Flask: the argument of [jsonify] or a
    rendered page, and the HTTP status. *)
Inductive body : Type :=
| jsonify (v : pyval)
| html (page : str).

Record response : Type := mkResponse { content : body; status : Z }.

(** How a call of a view ends: with a response, or with an exception that
    leaves the view function. *)
Inductive outcome : Type :=
| Responded (r : response)
| Escaped (e : exn).

(** A request as the views see it: the route, and for [/analyze_frame]
    what evaluating [request.json] gives (the decoded body, or the HTTP
    exception Flask raises for a body that is not JSON). *)
Inductive request : Type :=
| GET_index
| POST_analyze_frame (request_json : result pyval).

(** Where control is after a block of statements: at the next statement,
    leaving the function through [return], or unwinding with an
    exception. *)
Inductive flow (A : Type) : Type :=
| Next (a : A)
| Return (r : response)
| Raised (e : exn).
Arguments Next {A} a.
Arguments Return {A} r.
Arguments Raised {A} e.

(** The state of the process that views can see: the module global
    [client], a handle of the client library's type [C] or [None], and
    what has been printed so far. *)
Record process_of (C : Type) : Type := mkProcess {
  client : option C;
  stdout : list str
}.
Arguments mkProcess {C} client stdout.
Arguments client {C} p.
Arguments stdout {C} p.

Section App.

Context {rt : Runtime}.

(** ** Process state and the monad of view code *)

Definition process : Type := process_of Client.

Definition M (A : Type) : Type := process -> flow A * process.

Definition ret {A} (a : A) : M A := fun w => (Next a, w).

Definition bind {A B} (m : M A) (k : A -> M B) : M B :=
  fun w =>
    match m w with
    | (Next a, w') => k a w'
    | (Return r, w') => (Return r, w')
    | (Raised e, w') => (Raised e, w')
    end.

(** Evaluate an expression that may raise. *)
Definition eval {A} (r : result A) : M A :=
  fun w => (match r with Ok a => Next a | Raise e => Raised e end, w).

(** [return jsonify(...), status] *)
Definition return_ {A} (b : body) (code : Z) : M A :=
  fun w => (Return (mkResponse b code), w).

(** [print(line)] *)
Definition print (line : str) : M unit :=
  fun w => (Next tt, mkProcess (client w) (stdout w ++ [line])).

(** Read the module global [client]. *)
Definition global_client : M (option Client) :=
  fun w => (Next (client w), w).

(** The first clause whose class the exception is an instance of. *)
Fixpoint select_clause {A} (e : exn)
         (clauses : list (exn_class * (exn -> M A))) : option (M A) :=
  match clauses with
  | [] => None
  | (c, h) :: rest =>
      if isinstance e c then Some (h e) else select_clause e rest
  end.

(** [try: block  except C1 as e: h1  except C2 as e: h2 ...]: an exception
    raised by a clause's own body is not offered to the other clauses. *)
Definition try_ {A} (block : M A)
           (clauses : list (exn_class * (exn -> M A))) : M A :=
  fun w =>
    match block w with
    | (Raised e, w') =>
        match select_clause e clauses with
        | Some h => h w'
        | None => (Raised e, w')
        end
    | other => other
    end.

#[local] Notation "x <- m ;; k" := (bind m (fun x => k))
  (at level 61, m at next level, right associativity).
#[local] Notation "m ;;; k" := (bind m (fun _ => k))
  (at level 61, right associativity).

(** ** Module level *)

Definition MODEL_NAME : str := u "gemini-2.5-flash".

(** Import-time initialisation of [client] (the [try] at module level). *)
Definition startup : process :=
  match genai_Client with
  | Ok c => mkProcess (Some c) []
  | Raise _ =>
      mkProcess None
        [u "FATAL ERROR: Gemini Client initialization failed. Check if GEMINI_API_KEY is set correctly."]
  end.

(** ** [index] *)

Definition index : M unit :=
  page <- eval (render_template (u "index.html")) ;;
  return_ (html page) 200.

(** ** [analyze_frame] *)

(** [{"error": message}] *)
Definition error_dict (message : str) : pyval :=
  PDict [(u "error", PStr message)].

(** The f-string assigned to [prompt_text]. *)
Definition prompt_text (command : str) : str :=
  [newline]
  ++ u "    あなたは画像内の物体を検出し、ユーザーの指示に基づいて結果をフィルタリングし、JSON形式で正確なバウンディングボックス座標を返すエキスパートです。" ++ [newline]
  ++ [newline]
  ++ u "    【ユーザーの指示（最も重要な条件）】: " ++ [dquote] ++ command ++ [dquote] ++ [newline]
  ++ [newline]
  ++ u "    【要件】:" ++ [newline]
  ++ u "    1.  画像内の物体を検出し、**ユーザーの指示（色と物）に合致するもの**のみを選んでください。" ++ [newline]
  ++ u "    2.  各オブジェクトの**バウンディングボックス**は、画像の正規化座標（0.0から1.0）として `[x_min, y_min, x_max, y_max]` の配列形式で出力してください。" ++ [newline]
  ++ u "    3.  検出された各オブジェクトの**支配的な色**をHexコード（例: #FF0000）で出力してください。" ++ [newline]
  ++ u "    4.  出力は必ず以下のJSONスキーマに従う、単一のJSON配列としてください。他のテキストや説明は一切含めないでください。" ++ [newline]
  ++ [newline]
  ++ u "    JSONスキーマ:" ++ [newline]
  ++ u "    [" ++ [newline]
  ++ u "      {" ++ [dquote] ++ u "box" ++ [dquote] ++ u ": [0.1, 0.2, 0.3, 0.4], "
       ++ [dquote] ++ u "name" ++ [dquote] ++ u ": " ++ [dquote] ++ u "..." ++ [dquote] ++ u ", "
       ++ [dquote] ++ u "color_hex" ++ [dquote] ++ u ": " ++ [dquote] ++ u "#RRGGBB" ++ [dquote]
       ++ u "}," ++ [newline]
  ++ u "      ..." ++ [newline]
  ++ u "    ]" ++ [newline]
  ++ u "    ".

(** The three [except] clauses of the last [try].  [response] is the
    local variable of that name: unbound ([None]) while the model call has
    not returned. *)
Definition except_clauses {A} (prompt : str)
           (response : option GenerateContentResponse)
  : list (exn_class * (exn -> M A)) :=
  [ (APIError, fun e =>
       print (u "Failed prompt (API Error): " ++ firstn 200 prompt ++ u "...") ;;;
       return_ (jsonify (error_dict (u "Gemini API Error: " ++ msg e))) 500);
    (JSONDecodeError, fun e =>
       print (u "JSON Decode Error: " ++ msg e) ;;;
       text <- match response with
               | Some r => eval (response_text r)
               | None =>
                   eval (Raise (mkExn UnboundLocalError
                     (u "cannot access local variable 'response' where it is not associated with a value")))
               end ;;
       print (u "Gemini Raw Output: " ++ format_opt text) ;;;
       return_ (jsonify (error_dict
         (u "Gemini did not return valid JSON or format was incorrect."))) 500);
    (Exception, fun e =>
       return_ (jsonify (error_dict
         (u "An unexpected error occurred: " ++ msg e))) 500) ].

(** Step 2 of the view, the first [try]: cut the data URL at its first
    comma and decode what follows. *)
Definition decode_image (image_data_url : pyval) : M (list Byte.byte) :=
  try_ (parts <- eval (py_split image_data_url comma 1) ;;
        pair <- eval (unpack2 parts) ;;
        let '(header, encoded) := pair in
        eval (b64decode encoded))
    [ (Exception, fun e =>
         return_ (jsonify (error_dict
           (u "Base64 decoding error: " ++ msg e))) 500) ].

(** Step 3, the second [try]: open the bytes as an image and convert it
    to RGB. *)
Definition open_image (image_bytes : list Byte.byte) : M Image :=
  try_ (opened <- eval (Image_open image_bytes) ;;
        eval (Image_convert opened (u "RGB")))
    [ (Exception, fun e =>
         return_ (jsonify (error_dict
           (u "Image processing error: " ++ msg e))) 500) ].

(** Step 5, the third [try], up to the assignment of [response]: the
    call of the model. *)
Definition call_model (prompt : str) (img_pil : Image)
  : M GenerateContentResponse :=
  try_ (handle <- global_client ;;
        models <- eval (match handle with
                        | Some cl => Ok cl
                        | None => Raise (no_attribute PNone "models")
                        end) ;;
        eval (generate_content models MODEL_NAME prompt img_pil
                (u "application/json")))
    (except_clauses prompt None).

(** The rest of the third [try], with [response] bound: parse the reply
    and return it. *)
Definition relay_output (prompt command : str)
           (response : GenerateContentResponse) : M unit :=
  try_ (text <- eval (response_text response) ;;
        json_output <- eval (json_loads text) ;;
        return_ (jsonify (PDict [ (u "success", PBool true);
                                  (u "detections", json_output);
                                  (u "command", PStr command) ])) 200)
    (except_clauses prompt (Some response)).

Definition analyze_frame (request_json : result pyval) : M unit :=
  c <- global_client ;;
  match c with
  | None =>
      return_ (jsonify (error_dict
        (u "Gemini API client is not initialized. Check API Key."))) 500
  | Some _ =>
      (* 1. request data *)
      data <- eval request_json ;;
      image_data_url <- eval (py_get data (u "image") PNone) ;;
      command_raw <- eval (py_get data (u "command") (PStr [])) ;;
      command <- eval (py_strip command_raw) ;;
      if negb (truthy image_data_url) then
        return_ (jsonify (error_dict (u "No image data received"))) 400
      else
        (* 2. base64 decoding *)
        image_bytes <- decode_image image_data_url ;;
        (* 3. PIL image *)
        img_pil <- open_image image_bytes ;;
        (* 4. prompt *)
        let prompt := prompt_text command in
        (* 5. model call and JSON parsing *)
        response <- call_model prompt img_pil ;;
        relay_output prompt command response
  end.

(** ** Serving requests *)

(** Flask calls the view registered for the route.  A view that falls off
    its end returns [None], which Flask refuses. *)
Definition call_view (view : M unit) (w : process) : outcome * process :=
  match view w with
  | (Return r, w') => (Responded r, w')
  | (Raised e, w') => (Escaped e, w')
  | (Next _, w') =>
      (Escaped (mkExn TypeError
         (u "The view function did not return a valid response. The function either returned None or ended without a return statement.")),
       w')
  end.

Definition handle_request (req : request) : process -> outcome * process :=
  match req with
  | GET_index => call_view index
  | POST_analyze_frame request_json => call_view (analyze_frame request_json)
  end.

(** Requests served one after the other by the same process. *)
Fixpoint serve (w : process) (reqs : list request)
  : list outcome * process :=
  match reqs with
  | [] => ([], w)
  | req :: rest =>
      let '(o, w') := handle_request req w in
      let '(os, w'') := serve w' rest in
      (o :: os, w'')
  end.

End App.

(* ===================================================================== *)
(** * Reference implementations of the library calls *)
(* ===================================================================== *)

(** Executable versions of the standard-library functions behind
    [Runtime], following CPython 3.11, and stand-ins for PIL and the
    hosted model.  They serve to run the handler on concrete requests; the
    general theorems do not depend on them. *)

Module Base64.

(** ** [base64.b64decode(s)] with its default arguments

    A [str] argument is first encoded as ASCII.  The decoder then works in
    its non-strict mode: characters outside the base64 alphabet are
    discarded, and the input is rejected only when the characters that
    remain do not fill up whole groups of four. *)

Definition b64_value (c : N) : option N :=
  if ((65 <=? c) && (c <=? 90))%N then Some (c - 65)%N
  else if ((97 <=? c) && (c <=? 122))%N then Some (c - 71)%N
  else if ((48 <=? c) && (c <=? 57))%N then Some (c + 4)%N
  else if (c =? 43)%N then Some 62%N
  else if (c =? 47)%N then Some 63%N
  else None.

Definition to_byte (n : N) : Byte.byte :=
  match Strings.Byte.of_N (n mod 256) with
  | Some b => b
  | None => Byte.x00
  end.

(** The scanning loop of [binascii.a2b_base64]: [quad_pos] is the position
    in the current group of four, [leftchar] the bits not yet written,
    [pads] the number of [=] seen since the last data character, [out] the
    bytes written so far, last first.  [None] for [quad_pos] in the result
    stands for leaving the loop at a complete pad sequence. *)
Fixpoint a2b_loop (data : list N) (quad_pos : nat) (leftchar : N)
         (pads : nat) (out : list N) : option nat * list N :=
  match data with
  | [] => (Some quad_pos, out)
  | this_ch :: rest =>
      if (this_ch =? 61)%N then
        if (2 <=? quad_pos)%nat then
          if (4 <=? quad_pos + S pads)%nat then (None, out)
          else a2b_loop rest quad_pos leftchar (S pads) out
        else a2b_loop rest quad_pos leftchar pads out
      else
        match b64_value this_ch with
        | None => a2b_loop rest quad_pos leftchar pads out
        | Some v =>
            match quad_pos with
            | 0%nat => a2b_loop rest 1 v 0 out
            | 1%nat =>
                a2b_loop rest 2 (N.land v 0x0f) 0
                         (N.lor (N.shiftl leftchar 2) (N.shiftr v 4) :: out)
            | 2%nat =>
                a2b_loop rest 3 (N.land v 0x03) 0
                         (N.lor (N.shiftl leftchar 4) (N.shiftr v 2) :: out)
            | _ =>
                a2b_loop rest 0 0 0
                         (N.lor (N.shiftl leftchar 6) v :: out)
            end
        end
  end.

Definition a2b_base64 (data : list N) : result (list Byte.byte) :=
  match a2b_loop data 0 0 0 [] with
  | (Some (S q), out) =>
      match q with
      | O =>
          Raise (mkExn binascii_Error
            (u "Invalid base64-encoded string: number of data characters ("
               ++ decimal (List.length out / 3 * 4 + 1)
               ++ u ") cannot be 1 more than a multiple of 4"))
      | _ => Raise (mkExn binascii_Error (u "Incorrect padding"))
      end
  | (_, out) => Ok (map to_byte (rev out))
  end.

Definition b64decode (s : str) : result (list Byte.byte) :=
  if forallb (fun c => (c <? 128)%N) s then a2b_base64 s
  else Raise (mkExn ValueError
                (u "string argument should contain only ASCII characters")).

(** Well-formed base64 in the sense of RFC 4648, section 4: groups of four
    alphabet characters, the last group possibly ending in one or two
    [=]. *)
Definition is_b64_char (c : N) : bool :=
  match b64_value c with Some _ => true | None => false end.


(** The characters the decoder looks at: the alphabet and the pad. *)
Definition significant (c : N) : bool := (c =? 61)%N || is_b64_char c.

End Base64.

Module Json.

(** ** [json.loads(s)]

    The scanner of the [json] package with its default settings: strict
    strings, [NaN] and [Infinity] accepted, a repeated key keeps its first
    position and takes the last value.  The interpreter's limits on
    nesting depth and on the number of digits of an integer are not
    modelled. *)

Definition is_ws (c : N) : bool :=
  ((c =? 32) || (c =? 9) || (c =? 10) || (c =? 13))%N.

Fixpoint skip_ws (s : str) : str :=
  match s with
  | c :: r => if is_ws c then skip_ws r else s
  | [] => []
  end.

Definition is_digit (c : N) : bool := ((48 <=? c) && (c <=? 57))%N.

Fixpoint span_digits (s : str) : list N * str :=
  match s with
  | c :: r =>
      if is_digit c then let '(ds, rest) := span_digits r in (c :: ds, rest)
      else ([], s)
  | [] => ([], [])
  end.

Fixpoint strip_prefix (p s : str) : option str :=
  match p, s with
  | [], _ => Some s
  | a :: p', b :: s' => if (a =? b)%N then strip_prefix p' s' else None
  | _ :: _, [] => None
  end.

Definition digits_value (ds : list N) : Z :=
  fold_left (fun acc d => (acc * 10 + (Z.of_N d - 48))%Z) ds 0%Z.

(** *** Numbers *)

(** The binary64 number nearest to [m * 10^e] for [m > 0], ties to even:
    what [float()] makes of a decimal literal. *)
Definition nearest_float (m e : Z) : float :=
  let num := (if 0 <=? e then m * 10 ^ e else m)%Z in
  let den := (if 0 <=? e then 1 else 10 ^ (- e))%Z in
  let k0 := (Z.log2 num - Z.log2 den - 52)%Z in
  let scaled k := ((num * 2 ^ Z.max 0 (- k)) / (den * 2 ^ Z.max 0 k))%Z in
  let k1 := (if scaled k0 <? 2 ^ 52 then k0 - 1 else k0)%Z in
  let k := Z.max k1 (-1074) in
  let n' := (num * 2 ^ Z.max 0 (- k))%Z in
  let d' := (den * 2 ^ Z.max 0 k)%Z in
  let q := (n' / d')%Z in
  let r := (n' mod d')%Z in
  let q' := (if (d' <? 2 * r) || ((d' =? 2 * r) && Z.odd q)
             then q + 1 else q)%Z in
  Z.ldexp (PrimFloat.of_uint63 (Uint63.of_Z q')) k.

Definition float_of_decimal (negative : bool) (m e : Z) : float :=
  let f := if (m =? 0)%Z then PrimFloat.zero else nearest_float m e in
  if negative then PrimFloat.opp f else f.

(** A number literal at the head of [s]: an optional minus sign, then
    either a single 0 or a nonzero digit followed by digits, then an
    optional fraction (a dot and at least one digit), then an optional
    exponent (e or E, an optional sign, at least one digit).  It is an
    [int] unless it has a fraction or an exponent. *)
Definition match_number (s : str) : option (pyval * str) :=
  let '(negative, s1) :=
    match s with
    | 45%N :: r => (true, r)
    | _ => (false, s)
    end in
  let integer :=
    match s1 with
    | c :: r =>
        if (c =? 48)%N then Some ([c], r)
        else if is_digit c then
          let '(ds, rest) := span_digits r in Some (c :: ds, rest)
        else None
    | [] => None
    end in
  match integer with
  | None => None
  | Some (int_digits, s2) =>
      let '(frac, s3) :=
        match s2 with
        | 46%N :: d :: r =>
            if is_digit d then
              let '(ds, rest) := span_digits r in (Some (d :: ds), rest)
            else (None, s2)
        | _ => (None, s2)
        end in
      let exponent_at (neg : bool) (t : str) :=
        match span_digits t with
        | ([], _) => None
        | (ds, rest) =>
            Some ((if neg then - digits_value ds else digits_value ds)%Z,
                  rest)
        end in
      let expo :=
        match s3 with
        | c :: r =>
            if ((c =? 101) || (c =? 69))%N then
              match r with
              | 45%N :: t => exponent_at true t
              | 43%N :: t => exponent_at false t
              | _ => exponent_at false r
              end
            else None
        | [] => None
        end in
      match frac, expo with
      | None, None =>
          let z := digits_value int_digits in
          Some (PInt (if negative then - z else z)%Z, s3)
      | _, _ =>
          let fd := match frac with Some ds => ds | None => [] end in
          let '(e, rest) :=
            match expo with Some er => er | None => (0%Z, s3) end in
          Some (PFloat (float_of_decimal negative
                          (digits_value (int_digits ++ fd))
                          (e - Z.of_nat (List.length fd))),
                rest)
      end
  end.

(** *** Strings *)

Definition hex_value (c : N) : option N :=
  if is_digit c then Some (c - 48)%N
  else if ((97 <=? c) && (c <=? 102))%N then Some (c - 87)%N
  else if ((65 <=? c) && (c <=? 70))%N then Some (c - 55)%N
  else None.

Definition hex4 (a b c d : N) : option N :=
  match hex_value a, hex_value b, hex_value c, hex_value d with
  | Some x, Some y, Some z, Some w =>
      Some (x * 0x1000 + y * 0x100 + z * 0x10 + w)%N
  | _, _, _, _ => None
  end.

Definition simple_escape (c : N) : option N :=
  if (c =? 34)%N then Some 34%N              (* quote *)
  else if (c =? 92)%N then Some 92%N         (* backslash *)
  else if (c =? 47)%N then Some 47%N         (* slash *)
  else if (c =? 98)%N then Some 8%N          (* b *)
  else if (c =? 102)%N then Some 12%N        (* f *)
  else if (c =? 110)%N then Some 10%N        (* n *)
  else if (c =? 114)%N then Some 13%N        (* r *)
  else if (c =? 116)%N then Some 9%N         (* t *)
  else None.

Definition is_high_surrogate (c : N) : bool :=
  ((0xD800 <=? c) && (c <=? 0xDBFF))%N.
Definition is_low_surrogate (c : N) : bool :=
  ((0xDC00 <=? c) && (c <=? 0xDFFF))%N.
Definition join_surrogates (hi lo : N) : N :=
  (0x10000 + (hi - 0xD800) * 0x400 + (lo - 0xDC00))%N.

(** A scanning error: the message and the offset it is reported at, or
    the scanner giving up on nesting. *)
Inductive scan_error : Type :=
| Syntax (message : string) (pos : nat)
| TooDeep.

(** The body of a string literal, after the opening quote at offset
    [begin]; [n] is the length of the whole document, so the offset of the
    remaining input [s] is [n - length s]. *)
Fixpoint scanstring (n begin : nat) (s : str) (acc : str)
  : scan_error + (str * str) :=
  match s with
  | [] => inl (Syntax "Unterminated string starting at" begin)
  | c :: r =>
      if (c =? 34)%N then inr (rev acc, r)
      else if (c =? 92)%N then
        match r with
        | [] => inl (Syntax "Unterminated string starting at" begin)
        | esc :: r1 =>
            if (esc =? 117)%N then
              match r1 with
              | h1 :: h2 :: h3 :: h4 :: r2 =>
                  match hex4 h1 h2 h3 h4 with
                  | None =>
                      inl (Syntax "Invalid \uXXXX escape"
                                  (n - List.length r))
                  | Some c1 =>
                      if is_high_surrogate c1 then
                        match r2 with
                        | 92%N :: 117%N :: g1 :: g2 :: g3 :: g4 :: r3 =>
                            match hex4 g1 g2 g3 g4 with
                            | None =>
                                inl (Syntax "Invalid \uXXXX escape"
                                            (n - List.length r2 + 1))
                            | Some c2 =>
                                if is_low_surrogate c2
                                then scanstring n begin r3
                                       (join_surrogates c1 c2 :: acc)
                                else scanstring n begin r2 (c1 :: acc)
                            end
                        | _ => scanstring n begin r2 (c1 :: acc)
                        end
                      else scanstring n begin r2 (c1 :: acc)
                  end
              | _ =>
                  inl (Syntax "Invalid \uXXXX escape" (n - List.length r))
              end
            else
              match simple_escape esc with
              | Some x => scanstring n begin r1 (x :: acc)
              | None => inl (Syntax "Invalid \escape" (n - List.length s))
              end
        end
      else if (c <? 32)%N then
        inl (Syntax "Invalid control character at" (n - List.length s))
      else scanstring n begin r (c :: acc)
  end.

(** *** Values *)

(** [d[k] = v] *)
Fixpoint dict_set (k : str) (v : pyval) (d : list (str * pyval))
  : list (str * pyval) :=
  match d with
  | [] => [(k, v)]
  | (k', v') :: d' =>
      if str_eqb k k' then (k', v) :: d' else (k', v') :: dict_set k v d'
  end.

Definition keyword (word : string) (v : pyval) (s : str)
  : option (pyval * str) :=
  match strip_prefix (u word) s with
  | Some rest => Some (v, rest)
  | None => None
  end.

Definition first_of {A} (l : list (option A)) : option A :=
  fold_right (fun o acc => match o with Some x => Some x | None => acc end)
             None l.

Fixpoint scan_once (fuel n : nat) (s : str)
  : scan_error + (pyval * str) :=
  match fuel with
  | O => inl TooDeep
  | S fuel' =>
      match s with
      | [] => inl (Syntax "Expecting value" n)
      | c :: r =>
          if (c =? 34)%N then
            match scanstring n (n - List.length s) r [] with
            | inl e => inl e
            | inr (text, rest) => inr (PStr text, rest)
            end
          else if (c =? 123)%N then
            match skip_ws r with
            | 125%N :: rest => inr (PDict [], rest)
            | s1 => object_items fuel' n s1 []
            end
          else if (c =? 91)%N then
            match skip_ws r with
            | 93%N :: rest => inr (PList [], rest)
            | s1 => array_items fuel' n s1 []
            end
          else
            match first_of
                    [ keyword "null" PNone s;
                      keyword "true" (PBool true) s;
                      keyword "false" (PBool false) s;
                      keyword "NaN" (PFloat PrimFloat.nan) s;
                      keyword "Infinity" (PFloat PrimFloat.infinity) s;
                      keyword "-Infinity" (PFloat PrimFloat.neg_infinity) s;
                      match_number s ] with
            | Some found => inr found
            | None => inl (Syntax "Expecting value" (n - List.length s))
            end
      end
  end

with array_items (fuel n : nat) (s : str) (acc : list pyval)
  : scan_error + (pyval * str) :=
  match fuel with
  | O => inl TooDeep
  | S fuel' =>
      match scan_once fuel' n s with
      | inl e => inl e
      | inr (v, rest) =>
          match skip_ws rest with
          | 93%N :: rest' => inr (PList (rev (v :: acc)), rest')
          | 44%N :: rest' => array_items fuel' n (skip_ws rest') (v :: acc)
          | other =>
              inl (Syntax "Expecting ',' delimiter"
                          (n - List.length other))
          end
      end
  end

with object_items (fuel n : nat) (s : str) (acc : list (str * pyval))
  : scan_error + (pyval * str) :=
  match fuel with
  | O => inl TooDeep
  | S fuel' =>
      match s with
      | 34%N :: r =>
          match scanstring n (n - List.length s) r [] with
          | inl e => inl e
          | inr (key, rest) =>
              match skip_ws rest with
              | 58%N :: rest1 =>
                  match scan_once fuel' n (skip_ws rest1) with
                  | inl e => inl e
                  | inr (v, rest2) =>
                      let acc' := dict_set key v acc in
                      match skip_ws rest2 with
                      | 125%N :: rest' => inr (PDict acc', rest')
                      | 44%N :: rest' =>
                          object_items fuel' n (skip_ws rest') acc'
                      | other =>
                          inl (Syntax "Expecting ',' delimiter"
                                      (n - List.length other))
                      end
                  end
              | other =>
                  inl (Syntax "Expecting ':' delimiter"
                              (n - List.length other))
              end
          end
      | _ =>
          inl (Syntax "Expecting property name enclosed in double quotes"
                      (n - List.length s))
      end
  end.

(** [str(JSONDecodeError(message, doc, pos))] *)
Definition errmsg (message : string) (doc : str) (pos : nat) : exn :=
  let before := firstn pos doc in
  let lineno := S (count_occ N.eq_dec before newline) in
  let colno :=
    S (List.length (match break_at newline (rev before) with
                    | Some (tail, _) => tail
                    | None => before
                    end)) in
  mkExn JSONDecodeError
        (u message ++ u ": line " ++ decimal lineno ++ u " column "
           ++ decimal colno ++ u " (char " ++ decimal pos ++ u ")").

Definition loads (arg : option str) : result pyval :=
  match arg with
  | None =>
      Raise (mkExn TypeError
        (u "the JSON object must be str, bytes or bytearray, not NoneType"))
  | Some doc =>
      let n := List.length doc in
      match doc with
      | 0xFEFF%N :: _ =>
          Raise (errmsg "Unexpected UTF-8 BOM (decode using utf-8-sig)" doc 0)
      | _ =>
          match scan_once (2 * n + 2) n (skip_ws doc) with
          | inl (Syntax message pos) => Raise (errmsg message doc pos)
          | inl TooDeep =>
              Raise (mkExn (OtherError "RecursionError")
                           (u "maximum recursion depth exceeded"))
          | inr (v, rest) =>
              match skip_ws rest with
              | [] => Ok v
              | other =>
                  Raise (errmsg "Extra data" doc (n - List.length other))
              end
          end
      end
  end.

End Json.

Module Fake.

(** ** Stand-ins for PIL, Flask templates and the hosted model

    An image file is recognised by the eight-byte PNG signature; the
    model is a function from the prompt and the image to its reply (the
    text of the response, or an exception of the client library). *)

Record image : Type := mkImage { mode : str; data : list Byte.byte }.

Definition png_signature : list Byte.byte :=
  [Byte.x89; Byte.x50; Byte.x4e; Byte.x47;
   Byte.x0d; Byte.x0a; Byte.x1a; Byte.x0a].

Fixpoint has_prefix (p s : list Byte.byte) : bool :=
  match p, s with
  | [], _ => true
  | a :: p', b :: s' => Strings.Byte.eqb a b && has_prefix p' s'
  | _ :: _, [] => false
  end.

Definition open (bytes : list Byte.byte) : result image :=
  if has_prefix png_signature bytes then Ok (mkImage (u "RGBA") bytes)
  else Raise (mkExn UnidentifiedImageError (u "cannot identify image file")).

Definition convert (im : image) (to : str) : result image :=
  Ok (mkImage to (data im)).

Definition render (name : str) : result str :=
  if str_eqb name (u "index.html") then Ok (u "<!DOCTYPE html>")
  else Raise (mkExn (OtherError "TemplateNotFound") name).

(** A runtime with the reference [b64decode] and [json.loads]:
    [credential] says whether the API key is configured, [model] is the
    hosted model. *)
Definition runtime (credential : bool)
           (model : str -> image -> result (option str)) : Runtime :=
  {| Client := unit;
     Image := image;
     GenerateContentResponse := option str;
     genai_Client :=
       if credential then Ok tt
       else Raise (mkExn ValueError (u "Missing key inputs argument!"));
     render_template := render;
     b64decode := Base64.b64decode;
     Image_open := open;
     Image_convert := convert;
     generate_content := fun _ _ prompt img _ => model prompt img;
     response_text := fun r => Ok r;
     json_loads := Json.loads |}.

(** A model that answers every prompt with the same text. *)
Definition replies (text : str) : str -> image -> result (option str) :=
  fun _ _ => Ok (Some text).

(** JSON text for the examples, written with an apostrophe wherever the
    text has a double quote. *)
Definition json_text (s : string) : str :=
  map (fun c => if (c =? 39)%N then dquote else c) (u s).

End Fake.

(* ===================================================================== *)
(** * Vocabulary of the contract *)
(* ===================================================================== *)

(** Does the text contain the separator of a data URL? *)
Definition has_comma (s : str) : bool := existsb (N.eqb comma) s.


(** The command a request body carries: the value of its [command] field
    when that is text, the empty text when the field is absent. *)
Definition input_command (d : list (str * pyval)) : option str :=
  match dict_get (u "command") d with
  | None => Some []
  | Some (PStr s) => Some s
  | Some _ => None
  end.

(** Is the value a [str]?  Is it a [dict]? *)
Definition is_text (v : pyval) : bool :=
  match v with PStr _ => true | _ => false end.

Definition is_object (v : pyval) : bool :=
  match v with PDict _ => true | _ => false end.

(** A text with no whitespace at either end. *)
Definition trimmed (s : str) : bool :=
  match s with
  | [] => true
  | c :: _ => negb (isspace c) && negb (isspace (last s c))
  end.

(** The [image] field of a request body, [None] when absent. *)
Definition input_image (d : list (str * pyval)) : pyval :=
  match dict_get (u "image") d with
  | Some v => v
  | None => PNone
  end.

(** A detection object as the prompt asks for it: a [box] of four
    numbers, a [name] and a [color_hex], under these keys. *)
Definition is_number (v : pyval) : bool :=
  match v with
  | PInt _ | PFloat _ => true
  | _ => false
  end.

Definition is_detection (v : pyval) : bool :=
  match v with
  | PDict d =>
      match dict_get (u "box") d, dict_get (u "name") d,
            dict_get (u "color_hex") d with
      | Some (PList [a; b; c; e]), Some (PStr _), Some (PStr _) =>
          is_number a && is_number b && is_number c && is_number e
      | _, _, _ => false
      end
  | _ => false
  end.

(** The three bodies [analyze_frame] sends. *)
Definition success_body (detections : pyval) (command : str) : body :=
  jsonify (PDict [ (u "success", PBool true);
                   (u "detections", detections);
                   (u "command", PStr command) ]).

Definition error_response (message : str) (code : Z) : response :=
  mkResponse (jsonify (error_dict message)) code.


Section Contract.

Context {rt : Runtime}.

(** The request passes every step before the model call and the model
    answers with [response]: the client is initialised, the body is an
    object whose [image] is a data URL (header, comma, payload) and whose
    [command] is text or absent, the payload decodes, the bytes open as an
    image, and the call returns. *)
Inductive model_replied (w : process) (request_json : result pyval)
          (command : str) (response : GenerateContentResponse) : Prop :=
| ModelReplied (cl : Client) (d : list (str * pyval))
               (header encoded raw : str) (image_bytes : list Byte.byte)
               (opened img_pil : Image) :
    client w = Some cl ->
    request_json = Ok (PDict d) ->
    dict_get (u "image") d = Some (PStr (header ++ comma :: encoded)) ->
    has_comma header = false ->
    input_command d = Some raw ->
    command = strip raw ->
    b64decode encoded = Ok image_bytes ->
    Image_open image_bytes = Ok opened ->
    Image_convert opened (u "RGB") = Ok img_pil ->
    generate_content cl MODEL_NAME (prompt_text command) img_pil
                     (u "application/json") = Ok response ->
    model_replied w request_json command response.


(** A block of view code that leaves the global [client] as it is and
    whose result and printed lines depend on nothing but [client]. *)
Definition read_only {A} (m : M A) : Prop :=
  forall c, exists r lines,
    forall out, m (mkProcess c out) = (r, mkProcess c (out ++ lines)).

End Contract.

(** ** Sample requests and services *)

Module Sample.

(** A data URL whose payload is the PNG signature. *)
Definition png_data_url : str := u "data:image/png;base64,iVBORw0KGgo=".

(** The reply of the specification's round-trip example. *)
Definition red_cup_reply : str :=
  Fake.json_text
    "[{'box':[0.1,0.2,0.3,0.4],'name':'red cup','color_hex':'#FF0000'}]".

Definition red_cup : pyval :=
  PDict [ (u "box", PList [PFloat 0.1; PFloat 0.2; PFloat 0.3; PFloat 0.4]);
          (u "name", PStr (u "red cup"));
          (u "color_hex", PStr (u "#FF0000")) ].

(** [{"image": image, "command": command}] *)
Definition body (image command : pyval) : pyval :=
  PDict [(u "image", image); (u "command", command)].

(** A service with its API key configured whose model always answers
    [reply]. *)
Definition service (reply : str) : Runtime :=
  Fake.runtime true (Fake.replies reply).

(** A service started without its API key. *)
Definition service_without_key : Runtime :=
  Fake.runtime false (Fake.replies (u "[]")).

End Sample.

(** ** The paths through the view *)

(** The text of the prompt before the command, up to the opening quote,
    and after it, from the closing quote. *)
Definition prompt_prefix : str :=
  [newline]
  ++ u "    あなたは画像内の物体を検出し、ユーザーの指示に基づいて結果をフィルタリングし、JSON形式で正確なバウンディングボックス座標を返すエキスパートです。" ++ [newline]
  ++ [newline]
  ++ u "    【ユーザーの指示（最も重要な条件）】: " ++ [dquote].

Definition prompt_suffix : str :=
  [dquote] ++ [newline]
  ++ [newline]
  ++ u "    【要件】:" ++ [newline]
  ++ u "    1.  画像内の物体を検出し、**ユーザーの指示（色と物）に合致するもの**のみを選んでください。" ++ [newline]
  ++ u "    2.  各オブジェクトの**バウンディングボックス**は、画像の正規化座標（0.0から1.0）として `[x_min, y_min, x_max, y_max]` の配列形式で出力してください。" ++ [newline]
  ++ u "    3.  検出された各オブジェクトの**支配的な色**をHexコード（例: #FF0000）で出力してください。" ++ [newline]
  ++ u "    4.  出力は必ず以下のJSONスキーマに従う、単一のJSON配列としてください。他のテキストや説明は一切含めないでください。" ++ [newline]
  ++ [newline]
  ++ u "    JSONスキーマ:" ++ [newline]
  ++ u "    [" ++ [newline]
  ++ u "      {" ++ [dquote] ++ u "box" ++ [dquote] ++ u ": [0.1, 0.2, 0.3, 0.4], "
       ++ [dquote] ++ u "name" ++ [dquote] ++ u ": " ++ [dquote] ++ u "..." ++ [dquote] ++ u ", "
       ++ [dquote] ++ u "color_hex" ++ [dquote] ++ u ": " ++ [dquote] ++ u "#RRGGBB" ++ [dquote]
       ++ u "}," ++ [newline]
  ++ u "      ..." ++ [newline]
  ++ u "    ]" ++ [newline]
  ++ u "    ".

(** The line printed when the model call fails with an [APIError]. *)
Definition api_error_line (command : str) : str :=
  u "Failed prompt (API Error): " ++ firstn 200 (prompt_text command)
    ++ u "...".

Section Paths.

Context {rt : Runtime}.

(** The request passes the first two steps: the client is initialised,
    the body is an object whose [command] is text or absent and whose
    [image] is a text with a comma, and the decoder turns what follows
    the first comma into [image_bytes]. *)
Inductive image_decoded (w : process) (request_json : result pyval)
          (command : str) (cl : Client) (image_bytes : list Byte.byte)
  : Prop :=
| ImageDecoded (d : list (str * pyval)) (header encoded raw : str) :
    client w = Some cl ->
    request_json = Ok (PDict d) ->
    dict_get (u "image") d = Some (PStr (header ++ comma :: encoded)) ->
    has_comma header = false ->
    input_command d = Some raw ->
    command = strip raw ->
    b64decode encoded = Ok image_bytes ->
    image_decoded w request_json command cl image_bytes.

(** Step 3 raises [e]: in [Image.open], or in [convert]. *)
Inductive image_step_raises (image_bytes : list Byte.byte) : exn -> Prop :=
| OpenRaises (e : exn) :
    Image_open image_bytes = Raise e ->
    image_step_raises image_bytes e
| ConvertRaises (opened : Image) (e : exn) :
    Image_open image_bytes = Ok opened ->
    Image_convert opened (u "RGB") = Raise e ->
    image_step_raises image_bytes e.

(** The request reaches the model call, which is made with [img_pil]. *)
Inductive model_called (w : process) (request_json : result pyval)
          (command : str) (cl : Client) (img_pil : Image) : Prop :=
| ModelCalled (image_bytes : list Byte.byte) (opened : Image) :
    image_decoded w request_json command cl image_bytes ->
    Image_open image_bytes = Ok opened ->
    Image_convert opened (u "RGB") = Ok img_pil ->
    model_called w request_json command cl img_pil.

(** The body of the third [try] raises [e]: in the call, in reading
    [response.text], or in [json.loads].  The first component says
    whether [response] was assigned by then. *)
Inductive try_body_raises (cl : Client) (prompt : str) (img_pil : Image)
  : option GenerateContentResponse -> exn -> Prop :=
| CallRaises (e : exn) :
    generate_content cl MODEL_NAME prompt img_pil (u "application/json")
    = Raise e ->
    try_body_raises cl prompt img_pil None e
| TextRaises (response : GenerateContentResponse) (e : exn) :
    generate_content cl MODEL_NAME prompt img_pil (u "application/json")
    = Ok response ->
    response_text response = Raise e ->
    try_body_raises cl prompt img_pil (Some response) e
| ParseRaises (response : GenerateContentResponse) (text : option str)
              (e : exn) :
    generate_content cl MODEL_NAME prompt img_pil (u "application/json")
    = Ok response ->
    response_text response = Ok text ->
    json_loads text = Raise e ->
    try_body_raises cl prompt img_pil (Some response) e.

(** How a call of the view ends, what it prints, and why. *)
Inductive ending (w : process) (request_json : result pyval)
  : outcome -> list str -> Prop :=
| EndSuccess (command : str) response (text : option str) (v : pyval) :
    model_replied w request_json command response ->
    response_text response = Ok text ->
    json_loads text = Ok v ->
    ending w request_json
           (Responded (mkResponse (success_body v command) 200)) []
| EndMissingImage cl (d : list (str * pyval)) (raw : str) :
    client w = Some cl ->
    request_json = Ok (PDict d) ->
    input_command d = Some raw ->
    truthy (input_image d) = false ->
    ending w request_json
           (Responded (error_response (u "No image data received") 400)) []
| EndError (m : str) (lines : list str) :
    ending w request_json (Responded (error_response m 500)) lines
| EndEscape (e : exn) (lines : list str) :
    ending w request_json (Escaped e) lines.

(** What Flask gets from [index]: the rendered page, or the exception of
    the template engine. *)
Definition index_outcome : outcome :=
  match render_template (u "index.html") with
  | Ok page => Responded (mkResponse (html page) 200)
  | Raise e => Escaped e
  end.

(** The outcome of a request in a process whose client is [None]. *)
Definition outcome_without_client (req : request) : outcome :=
  match req with
  | GET_index => index_outcome
  | POST_analyze_frame _ =>
      Responded
        (error_response
           (u "Gemini API client is not initialized. Check API Key.") 500)
  end.

End Paths.

(** Services whose model step fails: the call raises [e], or the reply
    carries no text. *)
Module Faulty.

Definition raising (e : exn) : Runtime :=
  Fake.runtime true (fun _ _ => Raise e).

Definition silent : Runtime :=
  Fake.runtime true (fun _ _ => Ok None).

End Faulty.

(* ===================================================================== *)
(** * Properties *)
(* ===================================================================== *)

#[local] Arguments u : simpl never.
#[local] Arguments prompt_text : simpl never.
#[local] Arguments strip : simpl never.
#[local] Arguments no_attribute : simpl never.

(** ** Python level *)

(** [except Exception] takes every exception of the model. *)
Lemma isinstance_Exception (e : exn) : isinstance e Exception = true.
Proof. destruct e as [c m]; destruct c; reflexivity. Qed.

Lemma break_at_first (sep : N) (h t : str) :
  existsb (N.eqb sep) h = false ->
  break_at sep (h ++ sep :: t) = Some (h, t).
Proof.
  induction h as [|c h IH]; simpl; intros Hh.
  - now rewrite N.eqb_refl.
  - apply orb_false_elim in Hh as [Hc Hh].
    rewrite N.eqb_sym, Hc, (IH Hh). reflexivity.
Qed.

Lemma break_at_absent (sep : N) (s : str) :
  existsb (N.eqb sep) s = false -> break_at sep s = None.
Proof.
  induction s as [|c s IH]; simpl; intros Hs; [reflexivity|].
  apply orb_false_elim in Hs as [Hc Hs].
  rewrite N.eqb_sym, Hc, (IH Hs). reflexivity.
Qed.

(** [split(',', 1)] cuts a data URL at its first comma. *)
Lemma split_first_comma (header encoded : str) :
  has_comma header = false ->
  split comma 1 (header ++ comma :: encoded) = [header; encoded].
Proof.
  intros H. unfold split. now rewrite (break_at_first _ _ _ H).
Qed.

Lemma split_no_comma (s : str) :
  has_comma s = false -> split comma 1 s = [s].
Proof.
  intros H. unfold split. now rewrite (break_at_absent _ _ H).
Qed.

Lemma has_comma_app (header encoded : str) :
  has_comma (header ++ comma :: encoded) = true.
Proof.
  unfold has_comma. rewrite existsb_app. simpl. apply orb_true_r.
Qed.

Lemma strip_empty : strip [] = [].
Proof. reflexivity. Qed.


(** ** Reference implementations *)

(** The decoder does not see the characters outside the alphabet: a
    payload decodes like the payload with these characters removed. *)
Lemma a2b_loop_discards (data : list N) :
  forall quad_pos leftchar pads out,
    Base64.a2b_loop (filter Base64.significant data)
                    quad_pos leftchar pads out
    = Base64.a2b_loop data quad_pos leftchar pads out.
Proof.
  induction data as [|c data IH]; intros quad_pos leftchar pads out;
    [reflexivity|].
  unfold Base64.significant, Base64.is_b64_char. cbn [filter Base64.a2b_loop].
  destruct (c =? 61)%N eqn:Hpad.
  - cbn [orb Base64.a2b_loop]. rewrite Hpad.
    destruct (2 <=? quad_pos)%nat; [|apply IH].
    destruct (4 <=? quad_pos + S pads)%nat; [reflexivity|apply IH].
  - destruct (Base64.b64_value c) as [v|] eqn:Hv.
    + cbn [orb Base64.a2b_loop]. rewrite Hpad, Hv.
      destruct quad_pos as [|[|[|]]]; apply IH.
    + cbn [orb]. apply IH.
Qed.

Lemma a2b_base64_discards (data : list N) :
  Base64.a2b_base64 (filter Base64.significant data)
  = Base64.a2b_base64 data.
Proof. unfold Base64.a2b_base64. now rewrite a2b_loop_discards. Qed.

Example b64decode_plain :
  Base64.b64decode (u "QUJD")
  = Ok (map Base64.to_byte [65; 66; 67]%N).
Proof. reflexivity. Qed.

Example b64decode_with_blanks :
  Base64.b64decode (u "QU JD!")
  = Ok (map Base64.to_byte [65; 66; 67]%N).
Proof. reflexivity. Qed.

Example b64decode_short :
  Base64.b64decode (u "QUJ")
  = Raise (mkExn binascii_Error (u "Incorrect padding")).
Proof. reflexivity. Qed.

Example loads_number : Json.loads (Some (u "0.1")) = Ok (PFloat 0.1).
Proof. vm_compute. reflexivity. Qed.

Example loads_repeated_key :
  Json.loads (Some (Fake.json_text "{'a': 1, 'b': true, 'a': null}"))
  = Ok (PDict [(u "a", PNone); (u "b", PBool true)]).
Proof. vm_compute. reflexivity. Qed.

Example loads_trailing_comma :
  Json.loads (Some (u "[1,]"))
  = Raise (mkExn JSONDecodeError
                 (u "Expecting value: line 1 column 4 (char 3)")).
Proof. vm_compute. reflexivity. Qed.

Example strip_ideographic_space :
  strip (utf8_decode [0xE3; 0x80; 0x80; 0x72; 0x65; 0x64; 0x20; 0x0A]%N)
  = u "red".
Proof. vm_compute. reflexivity. Qed.

(** ** The monad of view code *)

Section Steps.

Context {rt : Runtime}.

Lemma bind_Next {A B} (m : M A) (k : A -> M B) (w w' : process) (a : A) :
  m w = (Next a, w') -> bind m k w = k a w'.
Proof. intros H. unfold bind. now rewrite H. Qed.

Lemma bind_Return {A B} (m : M A) (k : A -> M B) (w w' : process) r :
  m w = (Return r, w') -> bind m k w = (Return r, w').
Proof. intros H. unfold bind. now rewrite H. Qed.

Lemma bind_Raised {A B} (m : M A) (k : A -> M B) (w w' : process) e :
  m w = (Raised e, w') -> bind m k w = (Raised e, w').
Proof. intros H. unfold bind. now rewrite H. Qed.

Lemma bind_eval_Ok {A B} (a : A) (k : A -> M B) (w : process) :
  bind (eval (Ok a)) k w = k a w.
Proof. reflexivity. Qed.

Lemma bind_eval_Raise {A B} (e : exn) (k : A -> M B) (w : process) :
  bind (eval (Raise e)) k w = (Raised e, w).
Proof. reflexivity. Qed.

Lemma bind_global_client {B} (k : option Client -> M B) (w : process) :
  bind global_client k w = k (client w) w.
Proof. reflexivity. Qed.

(** A [try] whose block raises hands the exception to the first matching
    clause; with a final [except Exception] there always is one. *)
Lemma try_Raised {A} (block : M A) clauses (w w' : process) e :
  block w = (Raised e, w') ->
  try_ block clauses w =
  match select_clause e clauses with
  | Some h => h w'
  | None => (Raised e, w')
  end.
Proof. intros H. unfold try_. now rewrite H. Qed.

Lemma try_Next {A} (block : M A) clauses (w w' : process) a :
  block w = (Next a, w') -> try_ block clauses w = (Next a, w').
Proof. intros H. unfold try_. now rewrite H. Qed.

Lemma try_Return {A} (block : M A) clauses (w w' : process) r :
  block w = (Return r, w') -> try_ block clauses w = (Return r, w').
Proof. intros H. unfold try_. now rewrite H. Qed.

Lemma select_except_Exception {A} (h : exn -> M A) (e : exn) :
  select_clause e [(Exception, h)] = Some (h e).
Proof. simpl. now rewrite isinstance_Exception. Qed.

(** ** The steps of [analyze_frame] *)

(** *** Step 2: decoding *)

Lemma decode_image_ok (w : process) (header encoded : str) bytes :
  has_comma header = false ->
  b64decode encoded = Ok bytes ->
  decode_image (PStr (header ++ comma :: encoded)) w = (Next bytes, w).
Proof.
  intros Hh Hb. unfold decode_image. apply try_Next.
  unfold py_split. rewrite (split_first_comma _ _ Hh).
  rewrite bind_eval_Ok. simpl unpack2. rewrite bind_eval_Ok.
  now rewrite Hb.
Qed.

Lemma decode_image_rejected (w : process) (header encoded : str) e :
  has_comma header = false ->
  b64decode encoded = Raise e ->
  decode_image (PStr (header ++ comma :: encoded)) w =
  (Return (error_response (u "Base64 decoding error: " ++ msg e) 500), w).
Proof.
  intros Hh Hb. unfold decode_image.
  erewrite try_Raised.
  - rewrite select_except_Exception. reflexivity.
  - unfold py_split. rewrite (split_first_comma _ _ Hh).
    rewrite bind_eval_Ok. simpl unpack2. rewrite bind_eval_Ok.
    now rewrite Hb.
Qed.


(** Whatever the value, the step either yields bytes or returns a 500
    response; it prints nothing and lets no exception through. *)
Lemma decode_image_cases (w : process) (image : pyval) :
  (exists bytes, decode_image image w = (Next bytes, w))
  \/ (exists m, decode_image image w = (Return (error_response m 500), w)).
Proof.
  unfold decode_image.
  destruct (py_split image comma 1) as [parts|e] eqn:Hs.
  2:{ right. eexists. erewrite try_Raised.
      - rewrite select_except_Exception. reflexivity.
      - reflexivity. }
  destruct (unpack2 parts) as [[header encoded]|e] eqn:Hu.
  2:{ right. eexists. erewrite try_Raised.
      - rewrite select_except_Exception. reflexivity.
      - rewrite bind_eval_Ok, Hu. reflexivity. }
  destruct (b64decode encoded) as [bytes|e] eqn:Hb.
  - left. eexists. apply try_Next.
    rewrite bind_eval_Ok, Hu, bind_eval_Ok, Hb. reflexivity.
  - right. eexists. erewrite try_Raised.
    + rewrite select_except_Exception. reflexivity.
    + rewrite bind_eval_Ok, Hu, bind_eval_Ok, Hb. reflexivity.
Qed.

(** *** Step 3: the image *)

Lemma open_image_ok (w : process) bytes opened img_pil :
  Image_open bytes = Ok opened ->
  Image_convert opened (u "RGB") = Ok img_pil ->
  open_image bytes w = (Next img_pil, w).
Proof.
  intros Ho Hv. unfold open_image. apply try_Next.
  rewrite Ho, bind_eval_Ok, Hv. reflexivity.
Qed.

Lemma open_image_cases (w : process) bytes :
  (exists img_pil, open_image bytes w = (Next img_pil, w))
  \/ (exists m, open_image bytes w = (Return (error_response m 500), w)).
Proof.
  unfold open_image.
  destruct (Image_open bytes) as [opened|e] eqn:Ho.
  2:{ right. eexists. erewrite try_Raised.
      - rewrite select_except_Exception. reflexivity.
      - reflexivity. }
  destruct (Image_convert opened (u "RGB")) as [img_pil|e] eqn:Hv.
  - left. eexists. apply try_Next. rewrite bind_eval_Ok, Hv. reflexivity.
  - right. eexists. erewrite try_Raised.
    + rewrite select_except_Exception. reflexivity.
    + rewrite bind_eval_Ok, Hv. reflexivity.
Qed.

(** *** Step 5: the model call and the reply *)

Lemma call_model_ok (w : process) (prompt : str) img_pil cl response :
  client w = Some cl ->
  generate_content cl MODEL_NAME prompt img_pil (u "application/json")
  = Ok response ->
  call_model prompt img_pil w = (Next response, w).
Proof.
  intros Hc Hg. unfold call_model. apply try_Next.
  rewrite bind_global_client, Hc, bind_eval_Ok, Hg. reflexivity.
Qed.

Lemma relay_output_ok (w : process) (prompt command : str) response text v :
  response_text response = Ok text ->
  json_loads text = Ok v ->
  relay_output prompt command response w
  = (Return (mkResponse (success_body v command) 200), w).
Proof.
  intros Ht Hj. unfold relay_output. apply try_Return.
  rewrite Ht, bind_eval_Ok, Hj, bind_eval_Ok. reflexivity.
Qed.



(** A [JSONDecodeError] raised by the call itself reaches the second
    clause while [response] is still unbound: the clause raises
    [UnboundLocalError], which no clause catches. *)
Lemma call_model_json_error_escapes
      (w : process) (prompt : str) img_pil cl e :
  client w = Some cl ->
  generate_content cl MODEL_NAME prompt img_pil (u "application/json")
  = Raise e ->
  cls e = JSONDecodeError ->
  call_model prompt img_pil w
  = (Raised (mkExn UnboundLocalError
       (u "cannot access local variable 'response' where it is not associated with a value")),
     mkProcess (client w) (stdout w ++ [u "JSON Decode Error: " ++ msg e])).
Proof.
  intros Hc Hg Hcls. unfold call_model.
  erewrite try_Raised.
  2:{ rewrite bind_global_client, Hc, bind_eval_Ok, Hg. reflexivity. }
  simpl select_clause. unfold isinstance. rewrite Hcls. reflexivity.
Qed.



End Steps.

(** ** Views do not write the process state *)

Section ReadOnly.

Context {rt : Runtime}.

Lemma read_only_ret {A} (a : A) : read_only (ret a).
Proof. intros c. exists (Next a), []. intros out. now rewrite app_nil_r. Qed.

Lemma read_only_eval {A} (r : result A) : read_only (eval r).
Proof.
  intros c. eexists _, []. intros out. rewrite app_nil_r. reflexivity.
Qed.

Lemma read_only_return {A} (b : body) (code : Z) :
  read_only (@return_ rt A b code).
Proof.
  intros c. eexists _, []. intros out. rewrite app_nil_r. reflexivity.
Qed.

Lemma read_only_print (line : str) : read_only (print line).
Proof. intros c. exists (Next tt), [line]. reflexivity. Qed.

Lemma read_only_global_client : read_only global_client.
Proof.
  intros c. exists (Next c), []. intros out. now rewrite app_nil_r.
Qed.

Lemma read_only_bind {A B} (m : M A) (k : A -> M B) :
  read_only m -> (forall a, read_only (k a)) -> read_only (bind m k).
Proof.
  intros Hm Hk c. destruct (Hm c) as (r & lines & Hr).
  destruct r as [a|r|e].
  - destruct (Hk a c) as (r' & lines' & Hr').
    exists r', (lines ++ lines'). intros out.
    unfold bind. rewrite Hr, Hr', app_assoc. reflexivity.
  - exists (Return r), lines. intros out. unfold bind. now rewrite Hr.
  - exists (Raised e), lines. intros out. unfold bind. now rewrite Hr.
Qed.

Lemma read_only_selected {A} (e : exn) clauses (h : M A) :
  Forall (fun clause => forall e', read_only (snd clause e')) clauses ->
  select_clause e clauses = Some h -> read_only h.
Proof.
  induction 1 as [|[c h'] rest Hh _ IH]; simpl; [discriminate|].
  destruct (isinstance e c); [intros [= <-]; apply Hh | exact IH].
Qed.

Lemma read_only_try {A} (block : M A) clauses :
  read_only block ->
  Forall (fun clause => forall e, read_only (snd clause e)) clauses ->
  read_only (try_ block clauses).
Proof.
  intros Hb Hc c. destruct (Hb c) as (r & lines & Hr).
  destruct r as [a|r|e].
  - exists (Next a), lines. intros out. unfold try_. now rewrite Hr.
  - exists (Return r), lines. intros out. unfold try_. now rewrite Hr.
  - destruct (select_clause e clauses) as [h|] eqn:Hs.
    + destruct (read_only_selected _ _ _ Hc Hs c) as (r' & lines' & Hr').
      exists r', (lines ++ lines'). intros out.
      unfold try_. rewrite Hr, Hs, Hr', app_assoc. reflexivity.
    + exists (Raised e), lines. intros out. unfold try_. now rewrite Hr, Hs.
Qed.

(** Goals of the form [read_only m] for view code: follow the syntax of
    [m], splitting on the values that [match] and [if] inspect. *)
Ltac read_only_step :=
  match goal with
  | |- read_only (bind _ _) => apply read_only_bind; [|intros ?]
  | |- read_only (try_ _ _) => apply read_only_try
  | |- read_only (eval _) => apply read_only_eval
  | |- read_only (return_ _ _) => apply read_only_return
  | |- read_only (print _) => apply read_only_print
  | |- read_only global_client => apply read_only_global_client
  | |- read_only (match ?x with _ => _ end) => destruct x
  | |- Forall _ (_ :: _) => constructor; [intros ?; cbn [snd]|]
  | |- Forall _ [] => constructor
  end.

Lemma read_only_except_clauses {A} (prompt : str) response :
  Forall (fun clause => forall e, read_only (snd clause e))
         (@except_clauses rt A prompt response).
Proof. unfold except_clauses. repeat read_only_step. Qed.

Lemma read_only_index : read_only index.
Proof. unfold index. repeat read_only_step. Qed.

Lemma read_only_analyze_frame (request_json : result pyval) :
  read_only (analyze_frame request_json).
Proof.
  unfold analyze_frame, decode_image, open_image, call_model, relay_output.
  repeat first [ apply read_only_except_clauses | read_only_step ].
Qed.

Lemma handle_request_read_only (req : request) (c : option Client) :
  exists o lines, forall out,
    handle_request req (mkProcess c out) = (o, mkProcess c (out ++ lines)).
Proof.
  assert (Hview : forall view, read_only view ->
            exists o lines, forall out,
              call_view view (mkProcess c out)
              = (o, mkProcess c (out ++ lines))).
  { intros view Hv. destruct (Hv c) as (r & lines & Hr).
    destruct r as [[]|r|e]; eexists _, lines; intros out;
      unfold call_view; rewrite Hr; reflexivity. }
  destruct req; simpl; apply Hview.
  - apply read_only_index.
  - apply read_only_analyze_frame.
Qed.

End ReadOnly.

(** ** The view as a whole *)

Section View.

Context {rt : Runtime}.

(** With the client initialised, the view on an object body whose
    [command] is text or absent: the presence check, then the steps. *)
Lemma analyze_frame_fields (w : process) cl (d : list (str * pyval)) raw :
  client w = Some cl ->
  input_command d = Some raw ->
  analyze_frame (Ok (PDict d)) w =
  (if negb (truthy (input_image d)) then
     return_ (jsonify (error_dict (u "No image data received"))) 400
   else
     bind (decode_image (input_image d)) (fun image_bytes =>
     bind (open_image image_bytes) (fun img_pil =>
     bind (call_model (prompt_text (strip raw)) img_pil) (fun response =>
     relay_output (prompt_text (strip raw)) (strip raw) response)))) w.
Proof.
  intros Hc Hcmd. unfold analyze_frame.
  rewrite bind_global_client, Hc. cbv beta iota.
  rewrite bind_eval_Ok. unfold py_get. rewrite !bind_eval_Ok.
  fold (input_image d).
  unfold input_command in Hcmd.
  destruct (dict_get (u "command") d) as [[]|]; try discriminate;
    injection Hcmd as <-; reflexivity.
Qed.

Lemma truthy_data_url (header encoded : str) :
  truthy (PStr (header ++ comma :: encoded)) = true.
Proof. destruct header; reflexivity. Qed.

(** The view up to the model's reply. *)
Lemma analyze_frame_model_replied
      (w : process) (request_json : result pyval) (command : str) response :
  model_replied w request_json command response ->
  analyze_frame request_json w
  = relay_output (prompt_text command) command response w.
Proof.
  intros [cl d header encoded raw bytes opened img_pil
             Hc -> Himg Hh Hcmd -> Hb Ho Hv Hg].
  rewrite (analyze_frame_fields _ _ _ _ Hc Hcmd).
  unfold input_image. rewrite Himg, truthy_data_url. cbv beta iota delta [negb].
  rewrite (bind_Next _ _ _ _ _ (decode_image_ok w _ _ _ Hh Hb)).
  rewrite (bind_Next _ _ _ _ _ (open_image_ok w _ _ _ Ho Hv)).
  rewrite (bind_Next _ _ _ _ _ (call_model_ok w _ _ _ _ Hc Hg)).
  reflexivity.
Qed.


(** The presence check, on a body whose [command] is text or absent. *)
Lemma missing_image_is_400 (w : process) cl (d : list (str * pyval)) raw :
  client w = Some cl ->
  input_command d = Some raw ->
  truthy (input_image d) = false ->
  call_view (analyze_frame (Ok (PDict d))) w
  = (Responded (error_response (u "No image data received") 400), w).
Proof.
  intros Hc Hcmd Himg. unfold call_view.
  rewrite (analyze_frame_fields _ _ _ _ Hc Hcmd), Himg. reflexivity.
Qed.

End View.

(* ===================================================================== *)
(** * The contract of [/analyze_frame] *)
(* ===================================================================== *)

Section Endpoint.

Context {rt : Runtime}.

(** C1.  When the model's reply parses as an array of detection objects,
    the view answers with status 200 and a body whose [detections] field
    is that array: the same elements in the same order, next to
    [success: true] and the command. *)
Theorem detections_relayed_unchanged
        (w : process) (request_json : result pyval) (command text : str)
        (response : GenerateContentResponse) (detections : list pyval) :
  model_replied w request_json command response ->
  response_text response = Ok (Some text) ->
  json_loads (Some text) = Ok (PList detections) ->
  forallb is_detection detections = true ->
  call_view (analyze_frame request_json) w
  = (Responded (mkResponse (success_body (PList detections) command) 200),
     w).
Proof.
  intros Hreply Htext Hjson _. unfold call_view.
  rewrite (analyze_frame_model_replied _ _ _ _ Hreply).
  rewrite (relay_output_ok _ _ _ _ _ _ Htext Hjson). reflexivity.
Qed.

(** C9.  The reply is not checked beyond parsing: whatever value the
    model's text parses to (an object, a number, a string, a boolean,
    [null], an array of anything), the view answers 200 with that value
    as [detections]. *)
Theorem any_json_value_relayed
        (w : process) (request_json : result pyval) (command text : str)
        (response : GenerateContentResponse) (v : pyval) :
  model_replied w request_json command response ->
  response_text response = Ok (Some text) ->
  json_loads (Some text) = Ok v ->
  call_view (analyze_frame request_json) w
  = (Responded (mkResponse (success_body v command) 200), w).
Proof.
  intros Hreply Htext Hjson. unfold call_view.
  rewrite (analyze_frame_model_replied _ _ _ _ Hreply).
  rewrite (relay_output_ok _ _ _ _ _ _ Htext Hjson). reflexivity.
Qed.


(** C3.  If [genai.Client()] failed at import time, [client] is [None],
    and every POST to [/analyze_frame], whatever its body (also one that
    is not JSON), is answered 500 with the client-not-initialised
    message.  Nothing is printed and the process state after any number
    of requests is the one left by startup: the client is not created
    again. *)
Theorem uninitialized_client_always_500 (e : exn) :
  genai_Client = Raise e ->
  client startup = None
  /\ forall bodies : list (result pyval),
      serve startup (map POST_analyze_frame bodies)
      = (map (fun _ =>
                Responded
                  (error_response
                     (u "Gemini API client is not initialized. Check API Key.")
                     500))
             bodies,
         startup).
Proof.
  intros Hinit.
  assert (Hnone : client startup = None).
  { unfold startup. now rewrite Hinit. }
  split; [exact Hnone|].
  induction bodies as [|request_json bodies IH]; [reflexivity|].
  cbn [map serve handle_request]. unfold call_view, analyze_frame.
  rewrite bind_global_client, Hnone. cbv beta iota.
  unfold return_. rewrite IH. reflexivity.
Qed.

(** C8.  Serving requests never changes the global [client]: after any
    sequence of requests, to either route, ending in success or failure,
    it is what it was; and each outcome is the one the request would get
    from the process in its initial state, whatever was served before. *)
Theorem requests_leave_client_untouched (w : process) (reqs : list request) :
  client (snd (serve w reqs)) = client w
  /\ fst (serve w reqs) = map (fun req => fst (handle_request req w)) reqs.
Proof.
  destruct w as [c out]. revert out.
  induction reqs as [|req reqs IH]; intros out; [split; reflexivity|].
  destruct (handle_request_read_only req c) as (o & lines & Ho).
  cbn [serve map]. rewrite Ho.
  destruct (IH (out ++ lines)) as [IHc IHo].
  destruct (serve (mkProcess c (out ++ lines)) reqs) as [os w''] eqn:Hs.
  cbn [fst snd] in *. split; [exact IHc|].
  rewrite IHo. f_equal.
  apply map_ext. intros r.
  destruct (handle_request_read_only r c) as (o' & lines' & Ho').
  now rewrite !Ho'.
Qed.

(** C10.  The text before the first comma of the data URL has no
    influence: two request bodies with the same [command] whose [image]
    values agree after the first comma get the same outcome, printed
    output included. *)
Theorem header_is_ignored
        (w : process) (d1 d2 : list (str * pyval))
        (header1 header2 encoded : str) :
  dict_get (u "image") d1 = Some (PStr (header1 ++ comma :: encoded)) ->
  dict_get (u "image") d2 = Some (PStr (header2 ++ comma :: encoded)) ->
  has_comma header1 = false ->
  has_comma header2 = false ->
  dict_get (u "command") d1 = dict_get (u "command") d2 ->
  call_view (analyze_frame (Ok (PDict d1))) w
  = call_view (analyze_frame (Ok (PDict d2))) w.
Proof.
  intros H1 H2 Hh1 Hh2 Hcmd. unfold call_view. f_equal.
  unfold analyze_frame. rewrite !bind_global_client.
  destruct (client w) as [cl|]; [|reflexivity]. cbv beta iota.
  rewrite !bind_eval_Ok. unfold py_get. rewrite !bind_eval_Ok.
  rewrite H1, H2, Hcmd.
  destruct (dict_get (u "command") d2) as [raw|];
    (destruct (py_strip _) as [command|e]; [|reflexivity]);
    rewrite !bind_eval_Ok, !truthy_data_url; cbv beta iota delta [negb];
    (destruct (b64decode encoded) as [bytes|e] eqn:Hb;
     [ rewrite (bind_Next _ _ _ _ _ (decode_image_ok w _ _ _ Hh1 Hb)),
               (bind_Next _ _ _ _ _ (decode_image_ok w _ _ _ Hh2 Hb))
     | rewrite (bind_Return _ _ _ _ _ (decode_image_rejected w _ _ _ Hh1 Hb)),
               (bind_Return _ _ _ _ _ (decode_image_rejected w _ _ _ Hh2 Hb))
     ]); reflexivity.
Qed.



(** C2 (the code at the failing inputs).  With the client initialised, a
    body whose [command] is present and is not text (a number, [null], a
    list, an object) is never answered 400, also when its [image] is
    absent or empty: the call of [strip] raises before the presence
    check, outside every [try], and the exception leaves the view. *)
Theorem non_text_command_escapes
        (cl : Client) (out : list str) (d : list (str * pyval)) (v : pyval) :
  dict_get (u "command") d = Some v ->
  is_text v = false ->
  call_view (analyze_frame (Ok (PDict d))) (mkProcess (Some cl) out)
  = (Escaped (no_attribute v "strip"), mkProcess (Some cl) out).
Proof.
  intros Hv Htext. unfold call_view, analyze_frame.
  rewrite bind_global_client. cbv beta iota. cbn [client].
  rewrite bind_eval_Ok. unfold py_get. rewrite !bind_eval_Ok, Hv.
  destruct v; try discriminate; reflexivity.
Qed.

(** C5 (the code at the failing inputs).  With the client initialised, a
    JSON body that is not an object (an array, a string, a number, a
    boolean, [null]) is not answered with a JSON error: the call of [get]
    raises outside every [try], and the exception leaves the view. *)
Theorem non_object_body_escapes
        (cl : Client) (out : list str) (data : pyval) :
  is_object data = false ->
  call_view (analyze_frame (Ok data)) (mkProcess (Some cl) out)
  = (Escaped (no_attribute data "get"), mkProcess (Some cl) out).
Proof.
  intros Hobj. unfold call_view, analyze_frame.
  rewrite bind_global_client. cbv beta iota. cbn [client].
  rewrite bind_eval_Ok.
  destruct data; try discriminate; reflexivity.
Qed.

End Endpoint.

(* ===================================================================== *)
(** * Concrete runs *)
(* ===================================================================== *)

(** Instances are closed by evaluation: both the instance of the general
    statement and the statement of the run are computed, and then
    coincide. *)
Ltac by_evaluation H :=
  let T := type of H in
  let N := eval vm_compute in T in
  let H' := fresh "H" in
  assert (H' : N) by (vm_cast_no_check H);
  vm_compute; exact H'.

(** The request of the runs below passes every step: the client is there,
    the payload decodes to the PNG signature, the stand-in for PIL opens
    it, and the model answers [reply]. *)
Lemma sample_model_replied (reply : str) (sent : str) :
  @model_replied (Sample.service reply) startup
    (Ok (Sample.body (PStr Sample.png_data_url) (PStr sent)))
    (strip sent) (Some reply).
Proof.
  eapply (@ModelReplied (Sample.service reply) _ _ _ _ tt _
            (u "data:image/png;base64") (u "iVBORw0KGgo=") sent);
    reflexivity.
Defined.

(** The round-trip example of the specification: the reply
    [[{"box":[0.1,0.2,0.3,0.4],"name":"red cup","color_hex":"#FF0000"}]]
    arrives as [detections]. *)
Lemma red_cup_round_trip :
  @call_view (Sample.service Sample.red_cup_reply)
    (analyze_frame
       (Ok (Sample.body (PStr Sample.png_data_url) (PStr (u "red cup")))))
    startup
  = (Responded
       (mkResponse (success_body (PList [Sample.red_cup]) (u "red cup")) 200),
     startup).
Proof.
  assert (Hjson : @json_loads (Sample.service Sample.red_cup_reply)
                    (Some Sample.red_cup_reply)
                  = Ok (PList [Sample.red_cup]))
    by (vm_compute; reflexivity).
  assert (Hshape : forallb is_detection [Sample.red_cup] = true)
    by (vm_compute; reflexivity).
  pose proof (@detections_relayed_unchanged
                (Sample.service Sample.red_cup_reply)
                startup _ (u "red cup") Sample.red_cup_reply
                (Some Sample.red_cup_reply) [Sample.red_cup]
                (sample_model_replied Sample.red_cup_reply (u "red cup"))
                eq_refl Hjson Hshape) as H.
  by_evaluation H.
Defined.

(** A reply that is a JSON object, not an array, is relayed all the
    same. *)
Lemma object_reply_relayed :
  @call_view (Sample.service (Fake.json_text "{'answer': 42}"))
    (analyze_frame
       (Ok (Sample.body (PStr Sample.png_data_url) (PStr (u "red cup")))))
    startup
  = (Responded
       (mkResponse
          (success_body (PDict [(u "answer", PInt 42)]) (u "red cup")) 200),
     startup).
Proof.
  assert (Hjson : @json_loads
                    (Sample.service (Fake.json_text "{'answer': 42}"))
                    (Some (Fake.json_text "{'answer': 42}"))
                  = Ok (PDict [(u "answer", PInt 42)]))
    by (vm_compute; reflexivity).
  pose proof (@any_json_value_relayed
                (Sample.service (Fake.json_text "{'answer': 42}"))
                startup _ (u "red cup") (Fake.json_text "{'answer': 42}")
                (Some (Fake.json_text "{'answer': 42}")) _
                (sample_model_replied _ (u "red cup"))
                eq_refl Hjson) as H.
  by_evaluation H.
Defined.


(** A service started without its key answers 500 to a valid request, to
    an array, and to a body that is not JSON. *)
Lemma no_key_three_requests :
  @serve Sample.service_without_key startup
    (map POST_analyze_frame
       [ Ok (Sample.body (PStr Sample.png_data_url) (PStr (u "red cup")));
         Ok (PList []);
         Raise (mkExn UnsupportedMediaType (u "415 Unsupported Media Type")) ])
  = (repeat
       (Responded
          (error_response
             (u "Gemini API client is not initialized. Check API Key.")
             500))
       3,
     startup).
Proof.
  pose proof (proj2 (@uninitialized_client_always_500
                       Sample.service_without_key
                       (mkExn ValueError (u "Missing key inputs argument!"))
                       eq_refl)
                    [ Ok (Sample.body (PStr Sample.png_data_url)
                                      (PStr (u "red cup")));
                      Ok (PList []);
                      Raise (mkExn UnsupportedMediaType
                                   (u "415 Unsupported Media Type")) ]) as H.
  by_evaluation H.
Defined.

(** Two data URLs with different headers and the same payload. *)
Lemma jpeg_and_empty_header_agree :
  @call_view (Sample.service Sample.red_cup_reply)
    (analyze_frame
       (Ok (Sample.body (PStr (u "data:image/jpeg;base64,iVBORw0KGgo="))
                        (PStr (u "red cup")))))
    startup
  = @call_view (Sample.service Sample.red_cup_reply)
      (analyze_frame
         (Ok (Sample.body (PStr (u ",iVBORw0KGgo=")) (PStr (u "red cup")))))
      startup.
Proof.
  pose proof (@header_is_ignored (Sample.service Sample.red_cup_reply)
                startup
                [ (u "image", PStr (u "data:image/jpeg;base64,iVBORw0KGgo="));
                  (u "command", PStr (u "red cup")) ]
                [ (u "image", PStr (u ",iVBORw0KGgo="));
                  (u "command", PStr (u "red cup")) ]
                (u "data:image/jpeg;base64") [] (u "iVBORw0KGgo=")
                eq_refl eq_refl eq_refl eq_refl eq_refl) as H.
  by_evaluation H.
Defined.



(** The body [{"command": 5}]: no image, and no 400. *)
Lemma number_command_without_image_escapes :
  @call_view (Sample.service (u "[]"))
    (analyze_frame (Ok (PDict [(u "command", PInt 5)]))) startup
  = (Escaped (no_attribute (PInt 5) "strip"), startup).
Proof.
  exact (@non_text_command_escapes (Sample.service (u "[]")) tt []
           [(u "command", PInt 5)] (PInt 5) eq_refl eq_refl).
Defined.

(** The body [[]]. *)
Lemma empty_array_body_escapes :
  @call_view (Sample.service (u "[]")) (analyze_frame (Ok (PList []))) startup
  = (Escaped (no_attribute (PList []) "get"), startup).
Proof.
  exact (@non_object_body_escapes (Sample.service (u "[]")) tt []
           (PList []) eq_refl).
Defined.



(* ===================================================================== *)
(** * Further properties of the view *)
(* ===================================================================== *)

(** ** Texts *)

Lemma break_at_found (sep : N) (s h t : str) :
  break_at sep s = Some (h, t) ->
  s = h ++ sep :: t /\ existsb (N.eqb sep) h = false.
Proof.
  revert h t. induction s as [|c s IH]; intros h t; simpl; [discriminate|].
  destruct (c =? sep)%N eqn:Hc.
  - intros [= <- <-]. apply N.eqb_eq in Hc as ->. now split.
  - destruct (break_at sep s) as [[h' t']|]; [|discriminate].
    intros [= <- <-]. destruct (IH h' t' eq_refl) as [-> Hh].
    split; [reflexivity|]. simpl. now rewrite N.eqb_sym, Hc.
Qed.

(** [lstrip] removes a run of whitespace and stops at the first character
    that is not whitespace. *)
Lemma lstrip_spec (s : str) :
  exists spaces,
    s = spaces ++ lstrip s
    /\ forallb isspace spaces = true
    /\ match lstrip s with
       | [] => True
       | c :: _ => isspace c = false
       end.
Proof.
  induction s as [|c s (spaces & Hs & Hsp & Hhd)]; [now exists []|].
  simpl. destruct (isspace c) eqn:Hc.
  - exists (c :: spaces). simpl. rewrite Hc, Hsp. repeat split; auto.
    now f_equal.
  - exists []. simpl. now rewrite Hc.
Qed.

Lemma lstrip_whitespace (s : str) :
  forallb isspace s = true -> lstrip s = [].
Proof.
  induction s as [|c s IH]; simpl; [reflexivity|].
  intros H. apply andb_true_iff in H as [-> Hs]. now apply IH.
Qed.

(** A text that is nothing but whitespace strips to the empty text. *)
Lemma strip_whitespace (s : str) :
  forallb isspace s = true -> strip s = [].
Proof.
  intros H. unfold strip. now rewrite (lstrip_whitespace _ H).
Qed.

Lemma last_app_cons {A} (l m : list A) (x d : A) :
  last (l ++ x :: m) d = last (x :: m) d.
Proof.
  induction l as [|a l IH]; [reflexivity|].
  cbn [app]. rewrite <- IH. destruct l; reflexivity.
Qed.

Lemma last_rev_cons {A} (l : list A) (x d : A) :
  last (rev (x :: l)) d = x.
Proof. cbn [rev]. rewrite last_app_cons. reflexivity. Qed.

(** What [strip] returns has no whitespace at either end. *)
Lemma strip_is_trimmed (s : str) : trimmed (strip s) = true.
Proof.
  unfold strip, rstrip.
  destruct (lstrip_spec s) as (_ & _ & _ & Hhead).
  destruct (lstrip s) as [|c t]; [reflexivity|].
  destruct (lstrip_spec (rev (c :: t))) as (spaces & Hrev & Hsp & Hhd).
  destruct (lstrip (rev (c :: t))) as [|x m] eqn:Hm.
  - exfalso. rewrite app_nil_r in Hrev.
    assert (Hin : In c spaces).
    { rewrite <- Hrev. apply in_rev. rewrite rev_involutive. now left. }
    rewrite forallb_forall in Hsp. specialize (Hsp c Hin). congruence.
  - assert (Hlast : last (x :: m) c = c).
    { rewrite <- (last_app_cons spaces m x c), <- Hrev.
      apply last_rev_cons. }
    destruct (rev (x :: m)) as [|y r] eqn:Hr.
    { apply (f_equal (@List.length N)) in Hr. rewrite length_rev in Hr.
      discriminate. }
    assert (Hy : y = c).
    { apply (f_equal (@rev N)) in Hr. rewrite rev_involutive in Hr.
      rewrite Hr in Hlast. now rewrite last_rev_cons in Hlast. }
    assert (Hlx : last (y :: r) y = x).
    { rewrite <- Hr. apply last_rev_cons. }
    unfold trimmed. rewrite Hlx. subst y. now rewrite Hhead, Hhd.
Qed.

Lemma prompt_text_shape (command : str) :
  prompt_text command = prompt_prefix ++ command ++ prompt_suffix.
Proof.
  unfold prompt_text, prompt_prefix, prompt_suffix.
  repeat rewrite <- app_assoc. reflexivity.
Qed.

Lemma prompt_prefix_length : List.length prompt_prefix = 106%nat.
Proof. vm_compute. reflexivity. Qed.

Lemma prompt_suffix_length : List.length prompt_suffix = 414%nat.
Proof. vm_compute. reflexivity. Qed.

(** ** The steps, read backwards *)

Section StepsBackwards.

Context {rt : Runtime}.

(** The decode step goes on only for a text with a comma whose part
    after the first comma the decoder accepts. *)
Lemma decode_image_Next_inv (w w' : process) (image : pyval) bytes :
  decode_image image w = (Next bytes, w') ->
  w' = w
  /\ exists header encoded,
       image = PStr (header ++ comma :: encoded)
       /\ has_comma header = false
       /\ b64decode encoded = Ok bytes.
Proof.
  unfold decode_image, try_, bind, eval, return_.
  destruct image as [| | | |s| |]; cbn [py_split select_clause];
    try (rewrite isinstance_Exception; discriminate).
  unfold split. destruct (break_at comma s) as [[h t]|] eqn:Hb.
  - cbn [unpack2]. destruct (b64decode t) as [b|e] eqn:Hd.
    + intros [= <- <-]. split; [reflexivity|].
      destruct (break_at_found _ _ _ _ Hb) as [-> Hh]. now exists h, t.
    + cbn [select_clause]. rewrite isinstance_Exception. discriminate.
  - cbn [unpack2 select_clause]. rewrite isinstance_Exception. discriminate.
Qed.

Lemma open_image_Next_inv (w w' : process) bytes img_pil :
  open_image bytes w = (Next img_pil, w') ->
  w' = w
  /\ exists opened,
       Image_open bytes = Ok opened
       /\ Image_convert opened (u "RGB") = Ok img_pil.
Proof.
  unfold open_image, try_, bind, eval, return_.
  destruct (Image_open bytes) as [opened|e].
  - destruct (Image_convert opened (u "RGB")) as [img|e] eqn:Hv.
    + intros [= <- <-]. split; [reflexivity|]. now exists opened.
    + cbn [select_clause]. rewrite isinstance_Exception. discriminate.
  - cbn [select_clause]. rewrite isinstance_Exception. discriminate.
Qed.

Lemma open_image_raises (w : process) bytes e :
  image_step_raises bytes e ->
  open_image bytes w
  = (Return (error_response (u "Image processing error: " ++ msg e) 500), w).
Proof.
  intros H. unfold open_image. erewrite try_Raised.
  - rewrite select_except_Exception. reflexivity.
  - destruct H as [e Ho|opened e Ho Hv].
    + rewrite Ho. reflexivity.
    + rewrite Ho, bind_eval_Ok, Hv. reflexivity.
Qed.

(** What a clause of the third [try] does: it prints at most two lines
    and then returns a 500 response or raises. *)
Lemma except_clauses_trace {A} (prompt : str) response (e : exn)
      (w : process) :
  exists (h : M A) lines,
    select_clause e (except_clauses prompt response) = Some h
    /\ (List.length lines <= 2)%nat
    /\ ((exists m, h w = (Return (error_response m 500),
                          mkProcess (client w) (stdout w ++ lines)))
        \/ (exists e', h w = (Raised e',
                              mkProcess (client w) (stdout w ++ lines)))).
Proof.
  simpl select_clause.
  destruct (isinstance e APIError).
  { eexists _, [_]. split; [reflexivity|]. split; [simpl; lia|].
    left. eexists. reflexivity. }
  destruct (isinstance e JSONDecodeError).
  { destruct response as [r|].
    - destruct (response_text r) as [t|e'] eqn:Ht.
      + eexists _, [_; _]. split; [reflexivity|]. split; [simpl; lia|].
        left. eexists. unfold bind, print, eval, return_.
        cbn [client stdout]. rewrite <- app_assoc. reflexivity.
      + eexists _, [_]. split; [reflexivity|]. split; [simpl; lia|].
        right. eexists. reflexivity.
    - eexists _, [_]. split; [reflexivity|]. split; [simpl; lia|].
      right. eexists. reflexivity. }
  rewrite isinstance_Exception.
  eexists _, []. split; [reflexivity|]. split; [simpl; lia|].
  left. eexists. unfold return_. rewrite app_nil_r.
  destruct w; reflexivity.
Qed.

(** The block of [call_model] before its clauses. *)
Lemma call_block_result (w : process) (prompt : str) img_pil :
  exists r,
    bind global_client
      (fun handle =>
         bind (eval (match handle with
                     | Some cl => Ok cl
                     | None => Raise (no_attribute PNone "models")
                     end))
           (fun models =>
              eval (generate_content models MODEL_NAME prompt img_pil
                      (u "application/json")))) w = (r, w)
    /\ (forall response, r = Next response ->
          exists cl, client w = Some cl
                     /\ generate_content cl MODEL_NAME prompt img_pil
                          (u "application/json") = Ok response)
    /\ (forall ret, r <> Return ret).
Proof.
  unfold bind, global_client, eval.
  destruct (client w) as [cl|] eqn:Hc.
  - destruct (generate_content cl MODEL_NAME prompt img_pil
                (u "application/json")) as [response|e] eqn:Hg.
    + eexists. split; [reflexivity|]. split; [|discriminate].
      intros ? [= <-]. now exists cl.
    + eexists. split; [reflexivity|]. split; discriminate.
  - eexists. split; [reflexivity|]. split; discriminate.
Qed.

Lemma call_model_Next_inv (w w' : process) (prompt : str) img_pil response :
  call_model prompt img_pil w = (Next response, w') ->
  w' = w
  /\ exists cl, client w = Some cl
                /\ generate_content cl MODEL_NAME prompt img_pil
                     (u "application/json") = Ok response.
Proof.
  unfold call_model.
  destruct (call_block_result w prompt img_pil) as (r & Hr & Hnext & Hret).
  destruct r as [resp|ret|e].
  - rewrite (try_Next _ _ _ _ _ Hr). intros [= <- <-].
    split; [reflexivity|]. now apply Hnext.
  - now destruct (Hret ret).
  - rewrite (try_Raised _ _ _ _ _ Hr).
    destruct (except_clauses_trace (A:=GenerateContentResponse)
                prompt None e w) as (h & lines & -> & _ & [[m H]|[e' H]]);
      rewrite H; discriminate.
Qed.

(** The step prints at most two lines and leaves [client] alone. *)
Lemma call_model_trace (w : process) (prompt : str) img_pil :
  exists r lines,
    call_model prompt img_pil w
    = (r, mkProcess (client w) (stdout w ++ lines))
    /\ (List.length lines <= 2)%nat
    /\ match r with
       | Next _ => lines = []
       | Return ret => exists m, ret = error_response m 500
       | Raised _ => True
       end.
Proof.
  unfold call_model.
  destruct (call_block_result w prompt img_pil) as (r & Hr & _ & Hret).
  destruct r as [resp|ret|e].
  - rewrite (try_Next _ _ _ _ _ Hr). exists (Next resp), [].
    rewrite app_nil_r. destruct w.
    repeat split; first [reflexivity | simpl; lia].
  - now destruct (Hret ret).
  - rewrite (try_Raised _ _ _ _ _ Hr).
    destruct (except_clauses_trace (A:=GenerateContentResponse)
                prompt None e w)
      as (h & lines & -> & Hlen & [[m H]|[e' H]]); rewrite H.
    + eexists _, lines. repeat split; auto. now exists m.
    + eexists _, lines. repeat split; auto.
Qed.

Lemma relay_output_trace (w : process) (prompt command : str) response :
  exists r lines,
    relay_output prompt command response w
    = (r, mkProcess (client w) (stdout w ++ lines))
    /\ (List.length lines <= 2)%nat
    /\ match r with
       | Next _ => False
       | Return ret =>
           (lines = []
            /\ exists text v,
                 response_text response = Ok text
                 /\ json_loads text = Ok v
                 /\ ret = mkResponse (success_body v command) 200)
           \/ exists m, ret = error_response m 500
       | Raised _ => True
       end.
Proof.
  unfold relay_output.
  destruct (response_text response) as [text|e] eqn:Ht.
  2:{ erewrite try_Raised by reflexivity.
      destruct (except_clauses_trace (A:=unit) prompt (Some response) e w)
        as (h & lines & -> & Hlen & [[m H]|[e' H]]); rewrite H.
      - eexists _, lines. repeat split; auto. right. now exists m.
      - eexists _, lines. repeat split; auto. }
  destruct (json_loads text) as [v|e] eqn:Hj.
  - erewrite try_Return
      by (rewrite bind_eval_Ok, Hj, bind_eval_Ok; reflexivity).
    eexists _, []. rewrite app_nil_r. destruct w.
    split; [reflexivity|]. split; [simpl; lia|].
    left. split; [reflexivity|]. now exists text, v.
  - erewrite try_Raised by (rewrite bind_eval_Ok, Hj; reflexivity).
    destruct (except_clauses_trace (A:=unit) prompt (Some response) e w)
      as (h & lines & -> & Hlen & [[m H]|[e' H]]); rewrite H.
    + eexists _, lines. repeat split; auto. right. now exists m.
    + eexists _, lines. repeat split; auto.
Qed.

End StepsBackwards.

(** ** The view, path by path *)

Section PathFacts.

Context {rt : Runtime}.

Lemma process_unchanged (w : process) :
  w = mkProcess (client w) (stdout w ++ []).
Proof. destruct w. cbn. now rewrite app_nil_r. Qed.

Lemma analyze_frame_image_decoded
      (w : process) (request_json : result pyval) (command : str) cl bytes :
  image_decoded w request_json command cl bytes ->
  analyze_frame request_json w
  = bind (open_image bytes) (fun img_pil =>
    bind (call_model (prompt_text command) img_pil) (fun response =>
    relay_output (prompt_text command) command response)) w.
Proof.
  intros [d header encoded raw Hc -> Himg Hh Hcmd -> Hb].
  rewrite (analyze_frame_fields _ _ _ _ Hc Hcmd).
  unfold input_image. rewrite Himg, truthy_data_url.
  cbv beta iota delta [negb].
  now rewrite (bind_Next _ _ _ _ _ (decode_image_ok w _ _ _ Hh Hb)).
Qed.

Lemma analyze_frame_model_called
      (w : process) (request_json : result pyval) (command : str) cl img_pil :
  model_called w request_json command cl img_pil ->
  analyze_frame request_json w
  = bind (call_model (prompt_text command) img_pil) (fun response =>
    relay_output (prompt_text command) command response) w.
Proof.
  intros [bytes opened Hdec Ho Hv].
  rewrite (analyze_frame_image_decoded _ _ _ _ _ Hdec).
  now rewrite (bind_Next _ _ _ _ _ (open_image_ok w _ _ _ Ho Hv)).
Qed.

Lemma model_called_client
      (w : process) (request_json : result pyval) (command : str) cl img_pil :
  model_called w request_json command cl img_pil -> client w = Some cl.
Proof. intros [bytes opened [d h enc raw Hc _ _ _ _ _ _] _ _]. exact Hc. Qed.

(** The third [try] with a body that raises [e]: unfold the view up to
    the choice of the clause. *)
Ltac enter_clauses Hc Hraise :=
  let e0 := fresh "e" in
  let response := fresh "response" in
  let text := fresh "text" in
  let Hg := fresh "Hg" in
  let Ht := fresh "Ht" in
  let Hj := fresh "Hj" in
  destruct Hraise as [e0 Hg|response e0 Hg Ht|response text e0 Hg Ht Hj];
  [ unfold bind at 1; unfold call_model;
    erewrite try_Raised
      by (rewrite bind_global_client, Hc, bind_eval_Ok, Hg; reflexivity)
  | rewrite (bind_Next _ _ _ _ _ (call_model_ok _ _ _ _ _ Hc Hg));
    unfold relay_output;
    erewrite try_Raised by (rewrite Ht; reflexivity)
  | rewrite (bind_Next _ _ _ _ _ (call_model_ok _ _ _ _ _ Hc Hg));
    unfold relay_output;
    erewrite try_Raised by (rewrite Ht, bind_eval_Ok, Hj; reflexivity) ];
  simpl select_clause.

Lemma third_try_api_error
      (w : process) (command : str) cl img_pil bound e :
  client w = Some cl ->
  try_body_raises cl (prompt_text command) img_pil bound e ->
  isinstance e APIError = true ->
  bind (call_model (prompt_text command) img_pil)
       (fun response =>
          relay_output (prompt_text command) command response) w
  = (Return (error_response (u "Gemini API Error: " ++ msg e) 500),
     mkProcess (client w) (stdout w ++ [api_error_line command])).
Proof.
  intros Hc Hraise Hapi.
  enter_clauses Hc Hraise; rewrite Hapi; reflexivity.
Qed.

Lemma third_try_unexpected
      (w : process) (command : str) cl img_pil bound e :
  client w = Some cl ->
  try_body_raises cl (prompt_text command) img_pil bound e ->
  isinstance e APIError = false ->
  isinstance e JSONDecodeError = false ->
  bind (call_model (prompt_text command) img_pil)
       (fun response =>
          relay_output (prompt_text command) command response) w
  = (Return (error_response (u "An unexpected error occurred: " ++ msg e)
                            500),
     w).
Proof.
  intros Hc Hraise Hapi Hjson.
  enter_clauses Hc Hraise;
    rewrite Hapi, Hjson, isinstance_Exception; reflexivity.
Qed.

(** Unless a [JSONDecodeError] comes from the call itself or from reading
    [response.text], the third [try] answers 500 when its body raises. *)
Lemma third_try_responds
      (w : process) (command : str) cl img_pil bound e :
  client w = Some cl ->
  try_body_raises cl (prompt_text command) img_pil bound e ->
  (isinstance e APIError = false ->
   isinstance e JSONDecodeError = true ->
   exists response text,
     bound = Some response /\ response_text response = Ok text) ->
  exists m w',
    bind (call_model (prompt_text command) img_pil)
         (fun response =>
            relay_output (prompt_text command) command response) w
    = (Return (error_response m 500), w').
Proof.
  intros Hc Hraise Hbound.
  destruct (isinstance e APIError) eqn:Hapi.
  { do 2 eexists. now apply (third_try_api_error _ _ _ _ _ _ Hc Hraise). }
  destruct (isinstance e JSONDecodeError) eqn:Hjson.
  2:{ do 2 eexists.
      now apply (third_try_unexpected _ _ _ _ _ _ Hc Hraise). }
  specialize (Hbound eq_refl eq_refl).
  destruct Hbound as (r & t & Hsome & Htext).
  do 2 eexists.
  enter_clauses Hc Hraise; rewrite Hapi, Hjson;
    [discriminate Hsome | injection Hsome as <- | injection Hsome as <-];
    unfold bind, print, eval; rewrite Htext; reflexivity.
Qed.

End PathFacts.

(** ** Every request, from its outcome back to its cause *)

Section Trace.

Context {rt : Runtime}.

Lemma analyze_frame_trace (w : process) (request_json : result pyval) :
  exists o lines,
    call_view (analyze_frame request_json) w
    = (o, mkProcess (client w) (stdout w ++ lines))
    /\ (List.length lines <= 2)%nat
    /\ ending w request_json o lines.
Proof.
  assert (Hquiet : forall o,
             call_view (analyze_frame request_json) w = (o, w) ->
             ending w request_json o [] ->
             exists o lines,
               call_view (analyze_frame request_json) w
               = (o, mkProcess (client w) (stdout w ++ lines))
               /\ (List.length lines <= 2)%nat
               /\ ending w request_json o lines).
  { intros o Hrun Hend. exists o, []. rewrite <- process_unchanged.
    repeat split; auto. }
  assert (Hclient : client w = None \/ exists cl, client w = Some cl)
    by (destruct (client w); eauto).
  destruct Hclient as [Hc|[cl Hc]].
  { eapply Hquiet; [|apply EndError].
    unfold call_view, analyze_frame.
    rewrite bind_global_client, Hc. reflexivity. }
  destruct request_json as [data|e].
  2:{ eapply Hquiet; [|apply EndEscape].
      unfold call_view, analyze_frame.
      rewrite bind_global_client, Hc. reflexivity. }
  destruct (is_object data) eqn:Hobj.
  2:{ destruct data; try discriminate;
        (eapply Hquiet; [|apply EndEscape]);
        unfold call_view, analyze_frame;
        rewrite bind_global_client, Hc; reflexivity. }
  destruct data as [| | | | | |d]; try discriminate. clear Hobj.
  destruct (input_command d) as [raw|] eqn:Hcmd.
  2:{ unfold input_command in Hcmd.
      destruct (dict_get (u "command") d) as [v|] eqn:Hv; [|discriminate].
      destruct v; try discriminate;
        (eapply Hquiet; [|apply EndEscape]);
        unfold call_view, analyze_frame;
        rewrite bind_global_client, Hc; cbv beta iota;
        rewrite bind_eval_Ok; unfold py_get; rewrite !bind_eval_Ok, Hv;
        reflexivity. }
  destruct (truthy (input_image d)) eqn:Htruthy.
  2:{ eapply Hquiet; [|now apply (EndMissingImage _ _ cl d raw)].
      now apply (missing_image_is_400 _ cl _ raw). }
  unfold call_view. rewrite (analyze_frame_fields _ _ _ _ Hc Hcmd), Htruthy.
  cbv beta iota delta [negb].
  destruct (decode_image (input_image d) w) as [[bytes|ret|e] w1] eqn:Hdec.
  2:{ destruct (decode_image_cases w (input_image d)) as [[b H]|[m H]];
        rewrite H in Hdec; [discriminate|]. injection Hdec as <- <-.
      rewrite (bind_Return _ _ _ _ _ H).
      exists (Responded (error_response m 500)), [].
      rewrite <- process_unchanged. repeat split; auto. constructor. }
  2:{ destruct (decode_image_cases w (input_image d)) as [[b H]|[m H]];
        rewrite H in Hdec; discriminate. }
  destruct (decode_image_Next_inv _ _ _ _ Hdec)
    as (-> & header & encoded & Himg & Hh & Hb).
  rewrite (bind_Next _ _ _ _ _ Hdec).
  destruct (open_image bytes w) as [[img_pil|ret|e] w1] eqn:Hopen.
  2:{ destruct (open_image_cases w bytes) as [[b H]|[m H]];
        rewrite H in Hopen; [discriminate|]. injection Hopen as <- <-.
      rewrite (bind_Return _ _ _ _ _ H).
      exists (Responded (error_response m 500)), [].
      rewrite <- process_unchanged. repeat split; auto. constructor. }
  2:{ destruct (open_image_cases w bytes) as [[b H]|[m H]];
        rewrite H in Hopen; discriminate. }
  destruct (open_image_Next_inv _ _ _ _ Hopen) as (-> & opened & Ho & Hv).
  rewrite (bind_Next _ _ _ _ _ Hopen).
  destruct (call_model_trace w (prompt_text (strip raw)) img_pil)
    as (r & lines & Hcall & Hlen & Hr).
  destruct r as [response|ret|e].
  2:{ destruct Hr as [m ->]. rewrite (bind_Return _ _ _ _ _ Hcall).
      eexists _, lines. repeat split; auto. constructor. }
  2:{ rewrite (bind_Raised _ _ _ _ _ Hcall).
      eexists _, lines. repeat split; auto. constructor. }
  subst lines. rewrite <- process_unchanged in Hcall.
  destruct (call_model_Next_inv _ _ _ _ _ Hcall) as (_ & cl' & Hc' & Hg).
  rewrite Hc in Hc'. injection Hc' as <-.
  rewrite (bind_Next _ _ _ _ _ Hcall).
  destruct (relay_output_trace w (prompt_text (strip raw)) (strip raw)
                               response)
    as (r & lines & Hrelay & Hlen' & Hr).
  rewrite Hrelay.
  destruct r as [[]|ret|e]; [destruct Hr| |].
  - destruct Hr as [(-> & text & v & Ht & Hj & ->)|[m ->]].
    + eexists _, []. repeat split; auto.
      apply (EndSuccess _ _ (strip raw) response text v); auto.
      unfold input_image in Himg.
      destruct (dict_get (u "image") d) as [image|] eqn:Hget;
        [|discriminate].
      subst image.
      now apply (ModelReplied _ _ _ _ cl d header encoded raw bytes
                              opened img_pil).
    + eexists _, lines. repeat split; auto. constructor.
  - eexists _, lines. repeat split; auto. constructor.
Qed.

End Trace.

(** ** Further properties of the endpoint *)

Section Endings.

Context {rt : Runtime}.

(** X1.  The presence check: with the client initialised and a command
    that is text or absent, a body whose [image] is absent or falsy
    ([null], [false], zero, the empty text, list or object) is answered
    400 with the message [No image data received]; nothing is printed and
    no later step runs. *)
Theorem missing_image_answered_400
        (w : process) (cl : Client) (d : list (str * pyval)) (raw : str) :
  client w = Some cl ->
  input_command d = Some raw ->
  truthy (input_image d) = false ->
  call_view (analyze_frame (Ok (PDict d))) w
  = (Responded (error_response (u "No image data received") 400), w).
Proof.
  intros Hc Hcmd Himg. unfold call_view.
  rewrite (analyze_frame_fields _ _ _ _ Hc Hcmd), Himg. reflexivity.
Qed.


(** X3.  Step 3: when the payload decodes but [Image.open] or [convert]
    raises, the view answers 500 with [Image processing error:] followed
    by the exception's text; the model is not called and nothing is
    printed. *)
Theorem image_failure_is_500
        (w : process) (request_json : result pyval) (command : str)
        (cl : Client) (image_bytes : list Byte.byte) (e : exn) :
  image_decoded w request_json command cl image_bytes ->
  image_step_raises image_bytes e ->
  call_view (analyze_frame request_json) w
  = (Responded (error_response (u "Image processing error: " ++ msg e) 500),
     w).
Proof.
  intros Hdec Hraise. unfold call_view.
  rewrite (analyze_frame_image_decoded _ _ _ _ _ Hdec).
  now rewrite (bind_Return _ _ _ _ _ (open_image_raises w _ _ Hraise)).
Qed.

(** X4.  The first clause: when the body of the third [try] raises an
    [APIError] (or an instance of a subclass), the view prints one line,
    the first 200 characters of the prompt between a fixed label and
    three dots, and answers 500 with [Gemini API Error:] followed by the
    exception's text. *)
Theorem api_error_is_500_and_logged
        (w : process) (request_json : result pyval) (command : str)
        (cl : Client) (img_pil : Image)
        (bound : option GenerateContentResponse) (e : exn) :
  model_called w request_json command cl img_pil ->
  try_body_raises cl (prompt_text command) img_pil bound e ->
  isinstance e APIError = true ->
  call_view (analyze_frame request_json) w
  = (Responded (error_response (u "Gemini API Error: " ++ msg e) 500),
     mkProcess (client w) (stdout w ++ [api_error_line command])).
Proof.
  intros Hcalled Hraise Hapi. unfold call_view.
  rewrite (analyze_frame_model_called _ _ _ _ _ Hcalled).
  now rewrite (third_try_api_error _ _ _ _ _ _
                 (model_called_client _ _ _ _ _ Hcalled) Hraise Hapi).
Qed.

(** X5.  The prompt is the fixed text with the command between two
    quotes, 520 characters plus the command; so the line printed on an
    API error is always 230 characters long and shows, after the first
    106 characters of the prompt, at most the first 94 characters of the
    command. *)
Theorem api_error_line_bounded (command : str) :
  List.length (prompt_text command) = (520 + List.length command)%nat
  /\ api_error_line command
     = u "Failed prompt (API Error): " ++ prompt_prefix
         ++ firstn 94 (command ++ prompt_suffix) ++ u "..."
  /\ List.length (api_error_line command) = 230%nat.
Proof.
  assert (Hline : api_error_line command
                  = u "Failed prompt (API Error): " ++ prompt_prefix
                      ++ firstn 94 (command ++ prompt_suffix) ++ u "...").
  { unfold api_error_line. rewrite prompt_text_shape, firstn_app.
    rewrite prompt_prefix_length.
    rewrite (firstn_all2 prompt_prefix)
      by (rewrite prompt_prefix_length; lia).
    now rewrite <- app_assoc. }
  split; [|split; [exact Hline|]].
  - rewrite prompt_text_shape, !length_app.
    rewrite prompt_prefix_length, prompt_suffix_length. lia.
  - rewrite Hline, !length_app, prompt_prefix_length.
    rewrite firstn_length_le
      by (rewrite length_app, prompt_suffix_length; lia).
    reflexivity.
Qed.

(** X6.  The last clause: when the body of the third [try] raises an
    exception that is neither an [APIError] nor a [JSONDecodeError] (the
    call fails otherwise, the reply has no text so that [json.loads]
    raises [TypeError], ...), the view answers 500 with
    [An unexpected error occurred:] followed by the exception's text and
    prints nothing. *)
Theorem unexpected_error_is_500
        (w : process) (request_json : result pyval) (command : str)
        (cl : Client) (img_pil : Image)
        (bound : option GenerateContentResponse) (e : exn) :
  model_called w request_json command cl img_pil ->
  try_body_raises cl (prompt_text command) img_pil bound e ->
  isinstance e APIError = false ->
  isinstance e JSONDecodeError = false ->
  call_view (analyze_frame request_json) w
  = (Responded
       (error_response (u "An unexpected error occurred: " ++ msg e) 500),
     w).
Proof.
  intros Hcalled Hraise Hapi Hjson. unfold call_view.
  rewrite (analyze_frame_model_called _ _ _ _ _ Hcalled).
  now rewrite (third_try_unexpected _ _ _ _ _ _
                 (model_called_client _ _ _ _ _ Hcalled) Hraise Hapi Hjson).
Qed.

(** X7.  The second clause reads [response.text]: when the call of the
    model itself raises [JSONDecodeError], [response] is not assigned
    yet, the clause prints its first line and then raises
    [UnboundLocalError], which leaves the view. *)
Theorem json_error_in_call_escapes
        (w : process) (request_json : result pyval) (command : str)
        (cl : Client) (img_pil : Image) (e : exn) :
  model_called w request_json command cl img_pil ->
  generate_content cl MODEL_NAME (prompt_text command) img_pil
                   (u "application/json") = Raise e ->
  cls e = JSONDecodeError ->
  call_view (analyze_frame request_json) w
  = (Escaped
       (mkExn UnboundLocalError
          (u "cannot access local variable 'response' where it is not associated with a value")),
     mkProcess (client w) (stdout w ++ [u "JSON Decode Error: " ++ msg e])).
Proof.
  intros Hcalled Hg Hcls. unfold call_view.
  rewrite (analyze_frame_model_called _ _ _ _ _ Hcalled).
  now rewrite (bind_Raised _ _ _ _ _
                 (call_model_json_error_escapes w _ _ _ _
                    (model_called_client _ _ _ _ _ Hcalled) Hg Hcls)).
Qed.

(** X8.  A 200 response has one cause: whenever the view answers 200,
    every step before the model call passed, the model replied, its text
    parsed, the body is the success body with the parsed value and the
    stripped command, and nothing was printed. *)
Theorem success_means_model_replied
        (w w' : process) (request_json : result pyval) (content : body) :
  call_view (analyze_frame request_json) w
  = (Responded (mkResponse content 200), w') ->
  w' = w
  /\ exists command response text v,
       model_replied w request_json command response
       /\ response_text response = Ok text
       /\ json_loads text = Ok v
       /\ content = success_body v command.
Proof.
  intros Hrun.
  destruct (analyze_frame_trace w request_json)
    as (o & lines & Htrace & _ & Hend).
  rewrite Hrun in Htrace. injection Htrace as <- ->.
  inversion Hend as [command response text v Hreply Ht Hj Ho Hl
                    |cl d raw Hc Hreq Hcmd Himg Ho Hl
                    |m lines' Ho Hl|]; subst; try discriminate.
  rewrite <- process_unchanged. split; [reflexivity|].
  now exists command, response, text, v.
Qed.

(** X9.  No exception leaves the view for a body that is an object with
    a command that is text or absent, provided neither the model call
    nor reading [response.text] raises [JSONDecodeError]: the view then
    answers with the success body and 200, or with an error body and 400
    or 500. *)
Theorem well_formed_request_is_answered
        (w : process) (d : list (str * pyval)) (raw : str) :
  input_command d = Some raw ->
  (forall cl model prompt img mime e,
      generate_content cl model prompt img mime = Raise e ->
      isinstance e JSONDecodeError = false) ->
  (forall response e,
      response_text response = Raise e ->
      isinstance e JSONDecodeError = false) ->
  exists r w',
    call_view (analyze_frame (Ok (PDict d))) w = (Responded r, w')
    /\ ((exists v, r = mkResponse (success_body v (strip raw)) 200)
        \/ (exists m code,
              (code = 400 \/ code = 500)%Z /\ r = error_response m code)).
Proof.
  intros Hcmd Hcall Htext.
  assert (Herr : forall (m : M unit) msg code w1,
             (code = 400 \/ code = 500)%Z ->
             m w = (Return (error_response msg code), w1) ->
             exists r w',
               call_view m w = (Responded r, w')
               /\ ((exists v, r = mkResponse (success_body v (strip raw)) 200)
                   \/ (exists m code,
                         (code = 400 \/ code = 500)%Z
                         /\ r = error_response m code))).
  { intros m msg0 code w1 Hcode Hm. do 2 eexists. unfold call_view.
    rewrite Hm. split; [reflexivity|]. right. now exists msg0, code. }
  destruct (client w) as [cl|] eqn:Hc.
  2:{ eapply (Herr _ _ 500%Z); [now right|].
      unfold analyze_frame. rewrite bind_global_client, Hc. reflexivity. }
  destruct (truthy (input_image d)) eqn:Htruthy.
  2:{ eapply (Herr _ _ 400%Z); [now left|].
      rewrite (analyze_frame_fields _ _ _ _ Hc Hcmd), Htruthy.
      reflexivity. }
  assert (Hfields := analyze_frame_fields _ _ _ _ Hc Hcmd).
  rewrite Htruthy in Hfields. cbv beta iota delta [negb] in Hfields.
  destruct (decode_image_cases w (input_image d)) as [[bytes Hd]|[m Hd]].
  2:{ eapply (Herr _ _ 500%Z); [now right|].
      rewrite Hfields. now rewrite (bind_Return _ _ _ _ _ Hd). }
  rewrite (bind_Next _ _ _ _ _ Hd) in Hfields.
  destruct (open_image_cases w bytes) as [[img_pil Ho]|[m Ho]].
  2:{ eapply (Herr _ _ 500%Z); [now right|].
      rewrite Hfields. now rewrite (bind_Return _ _ _ _ _ Ho). }
  rewrite (bind_Next _ _ _ _ _ Ho) in Hfields.
  assert (Hraises : forall bound e,
             try_body_raises cl (prompt_text (strip raw)) img_pil bound e ->
             (isinstance e APIError = false ->
              isinstance e JSONDecodeError = true ->
              exists response text,
                bound = Some response /\ response_text response = Ok text) ->
             exists r w',
               call_view (analyze_frame (Ok (PDict d))) w = (Responded r, w')
               /\ ((exists v, r = mkResponse (success_body v (strip raw)) 200)
                   \/ (exists m code,
                         (code = 400 \/ code = 500)%Z
                         /\ r = error_response m code))).
  { intros bound e Hraise Hbound.
    destruct (third_try_responds w (strip raw) cl img_pil bound e
                                 Hc Hraise Hbound) as (m & w1 & H3).
    eapply (Herr _ _ 500%Z); [now right|]. rewrite Hfields. exact H3. }
  destruct (generate_content cl MODEL_NAME (prompt_text (strip raw)) img_pil
              (u "application/json")) as [response|e] eqn:Hg.
  2:{ apply (Hraises None e); [now constructor|].
      intros _ Hjson. rewrite (Hcall _ _ _ _ _ _ Hg) in Hjson.
      discriminate. }
  destruct (response_text response) as [text|e] eqn:Ht.
  2:{ apply (Hraises (Some response) e); [now apply TextRaises|].
      intros _ Hjson. rewrite (Htext _ _ Ht) in Hjson. discriminate. }
  destruct (json_loads text) as [v|e] eqn:Hj.
  2:{ apply (Hraises (Some response) e);
        [now apply (ParseRaises _ _ _ response text)|].
      intros _ _. now exists response, text. }
  do 2 eexists. unfold call_view. rewrite Hfields.
  rewrite (bind_Next _ _ _ _ _ (call_model_ok w _ _ _ _ Hc Hg)).
  rewrite (relay_output_ok _ _ _ _ _ _ Ht Hj).
  split; [reflexivity|]. left. now exists v.
Qed.

End Endings.

Section Shape.

Context {rt : Runtime}.


(** X11.  A call of the view appends at most two lines to the output and
    leaves the client as it is; a call answered with a status other than
    500 prints nothing. *)
Theorem at_most_two_lines_printed
        (w : process) (request_json : result pyval) :
  exists lines,
    snd (call_view (analyze_frame request_json) w)
    = mkProcess (client w) (stdout w ++ lines)
    /\ (List.length lines <= 2)%nat
    /\ (forall r,
           fst (call_view (analyze_frame request_json) w) = Responded r ->
           status r <> 500%Z -> lines = []).
Proof.
  destruct (analyze_frame_trace w request_json)
    as (o & lines & Htrace & Hlen & Hend).
  exists lines. rewrite Htrace. cbn [fst snd].
  split; [reflexivity|]. split; [exact Hlen|].
  intros r Ho Hstatus. subst o.
  inversion Hend as [command response text v Hreply Ht Hj Ho Hl
                    |cl d raw Hc Hreq Hcmd Himg Ho Hl
                    |m lines' Ho Hl|]; subst; try reflexivity.
  now elim Hstatus.
Qed.

(** X12.  The command counts only through its stripped form: two bodies
    with the same [image] whose commands (text, or absent, which stands
    for the empty text) agree once stripped get the same outcome and the
    same printed output. *)
Theorem command_matters_only_stripped
        (w : process) (d1 d2 : list (str * pyval)) (raw1 raw2 : str) :
  input_image d1 = input_image d2 ->
  input_command d1 = Some raw1 ->
  input_command d2 = Some raw2 ->
  strip raw1 = strip raw2 ->
  call_view (analyze_frame (Ok (PDict d1))) w
  = call_view (analyze_frame (Ok (PDict d2))) w.
Proof.
  intros Himg H1 H2 Hstrip. unfold call_view.
  destruct (client w) as [cl|] eqn:Hc.
  - rewrite (analyze_frame_fields _ _ _ _ Hc H1).
    rewrite (analyze_frame_fields _ _ _ _ Hc H2).
    now rewrite Himg, Hstrip.
  - unfold analyze_frame. now rewrite !bind_global_client, Hc.
Qed.

(** X13.  The view reads two keys of the body and nothing else: two
    bodies whose [image] values agree (absent counting as [null]) and
    whose [command] entries agree get the same outcome and the same
    printed output, whatever else they hold and whatever the command
    is. *)
Theorem other_fields_ignored
        (w : process) (d1 d2 : list (str * pyval)) :
  input_image d1 = input_image d2 ->
  dict_get (u "command") d1 = dict_get (u "command") d2 ->
  call_view (analyze_frame (Ok (PDict d1))) w
  = call_view (analyze_frame (Ok (PDict d2))) w.
Proof.
  intros Himg Hcmd. unfold call_view, analyze_frame.
  rewrite !bind_global_client.
  destruct (client w) as [cl|]; [|reflexivity].
  cbv beta iota. rewrite !bind_eval_Ok. unfold py_get.
  rewrite !bind_eval_Ok.
  fold (input_image d1). fold (input_image d2).
  now rewrite Himg, Hcmd.
Qed.

(** X14.  The command of a 200 response never has whitespace at either
    end. *)
Theorem echoed_command_is_trimmed
        (w w' : process) (request_json : result pyval) (content : body) :
  call_view (analyze_frame request_json) w
  = (Responded (mkResponse content 200), w') ->
  exists v command,
    content = success_body v command /\ trimmed command = true.
Proof.
  intros Hrun.
  destruct (analyze_frame_trace w request_json)
    as (o & lines & Htrace & _ & Hend).
  rewrite Hrun in Htrace. injection Htrace as <- _.
  inversion Hend as [command response text v Hreply Ht Hj Ho Hl
                    |cl d raw Hc Hreq Hcmd Himg Ho Hl
                    |m lines' Ho Hl|]; subst; try discriminate.
  exists v, command. split; [reflexivity|].
  destruct Hreply as [? ? ? ? raw ? ? ? _ _ _ _ _ -> _ _ _ _].
  apply strip_is_trimmed.
Qed.

(** X15.  Different commands give different prompts: the command can be
    read back from the prompt. *)
Theorem prompt_text_injective (command1 command2 : str) :
  command1 <> command2 -> prompt_text command1 <> prompt_text command2.
Proof.
  intros Hne Heq. apply Hne.
  rewrite !prompt_text_shape in Heq.
  apply app_inv_head in Heq. now apply app_inv_tail in Heq.
Qed.

(** X16.  A process whose client failed to initialise keeps serving: for
    every sequence of requests, each [GET /] gets what [index] gives,
    each [POST /analyze_frame] the 500 of the missing client, and the
    process state stays the startup state. *)
Theorem without_client_page_still_served (e : exn) (reqs : list request) :
  genai_Client = Raise e ->
  serve startup reqs = (map outcome_without_client reqs, startup).
Proof.
  intros Hstart.
  assert (Hc : client startup = None)
    by (unfold startup; now rewrite Hstart).
  generalize dependent startup. intros w Hc.
  induction reqs as [|req reqs IH]; [reflexivity|].
  assert (Hreq : handle_request req w = (outcome_without_client req, w)).
  { destruct req as [|request_json]; simpl.
    - unfold call_view, index, index_outcome.
      destruct (render_template (u "index.html")); reflexivity.
    - unfold call_view, analyze_frame.
      now rewrite bind_global_client, Hc. }
  cbn [serve map]. now rewrite Hreq, IH.
Qed.

End Shape.

Lemma break_at_None_inv (sep : N) (s : str) :
  break_at sep s = None -> existsb (N.eqb sep) s = false.
Proof.
  induction s as [|c s IH]; simpl; [reflexivity|].
  destruct (c =? sep)%N eqn:Hc; [discriminate|].
  destruct (break_at sep s) as [[h t]|]; [discriminate|].
  intros _. rewrite N.eqb_sym, Hc. now apply IH.
Qed.

(** X17.  [split(',', 1)] on a data URL: a text with a comma is cut at
    its first comma into two parts that, put back around a comma, give
    the text again, so that the payload keeps any further comma; a text
    without a comma comes back whole, as a single part. *)
Theorem split_at_first_comma (s : str) :
  if has_comma s then
    exists header encoded,
      split comma 1 s = [header; encoded]
      /\ s = header ++ comma :: encoded
      /\ has_comma header = false
  else split comma 1 s = [s].
Proof.
  destruct (has_comma s) eqn:Hs; [|now apply split_no_comma].
  destruct (break_at comma s) as [[h t]|] eqn:Hb.
  - destruct (break_at_found _ _ _ _ Hb) as [-> Hh].
    exists h, t. split; [|split; [reflexivity|exact Hh]].
    now apply split_first_comma.
  - apply break_at_None_inv in Hb. unfold has_comma in Hs.
    rewrite Hb in Hs. discriminate.
Qed.

(** ** Further runs *)

(** The request of the runs passes the first two steps and opens as an
    image, whatever the model does. *)
Lemma sample_model_called
      (model : str -> Fake.image -> result (option str)) (sent : str) :
  @model_called (Fake.runtime true model) startup
    (Ok (Sample.body (PStr Sample.png_data_url) (PStr sent)))
    (strip sent) tt (Fake.mkImage (u "RGB") Fake.png_signature).
Proof.
  eapply (@ModelCalled (Fake.runtime true model) _ _ _ _ _
            Fake.png_signature
            (Fake.mkImage (u "RGBA") Fake.png_signature));
    [|reflexivity|reflexivity].
  eapply (@ImageDecoded (Fake.runtime true model) _ _ _ _ _ _
            (u "data:image/png;base64") (u "iVBORw0KGgo=") sent);
    reflexivity.
Defined.

(** An empty [image] is a missing image. *)
Lemma empty_image_is_400 :
  @call_view (Sample.service (u "[]"))
    (analyze_frame (Ok (Sample.body (PStr []) (PStr (u "red cup")))))
    startup
  = (Responded (error_response (u "No image data received") 400), startup).
Proof.
  exact (@missing_image_answered_400 (Sample.service (u "[]")) startup tt
           [(u "image", PStr []); (u "command", PStr (u "red cup"))]
           (u "red cup") eq_refl eq_refl eq_refl).
Defined.


(** A payload that decodes to the bytes of [hello] is no image. *)
Lemma text_payload_is_no_image :
  @call_view (Sample.service (u "[]"))
    (analyze_frame
       (Ok (Sample.body (PStr (u "data:text/plain;base64,aGVsbG8="))
                        (PStr (u "red cup")))))
    startup
  = (Responded
       (error_response
          (u "Image processing error: cannot identify image file") 500),
     startup).
Proof.
  assert (Hdecoded :
            @image_decoded (Sample.service (u "[]")) startup
              (Ok (Sample.body (PStr (u "data:text/plain;base64,aGVsbG8="))
                               (PStr (u "red cup"))))
              (strip (u "red cup")) tt
              [Byte.x68; Byte.x65; Byte.x6c; Byte.x6c; Byte.x6f]).
  { eapply (@ImageDecoded (Sample.service (u "[]")) _ _ _ _ _ _
              (u "data:text/plain;base64") (u "aGVsbG8=") (u "red cup"));
      reflexivity. }
  assert (Hraises :
            @image_step_raises (Sample.service (u "[]"))
              [Byte.x68; Byte.x65; Byte.x6c; Byte.x6c; Byte.x6f]
              (mkExn UnidentifiedImageError
                     (u "cannot identify image file")))
    by (apply OpenRaises; reflexivity).
  pose proof (@image_failure_is_500 (Sample.service (u "[]")) startup _ _ _ _
                _ Hdecoded Hraises) as H.
  by_evaluation H.
Defined.

(** The model call fails with a [ClientError], a subclass of [APIError]:
    status 500, the error's text in the body and the head of the prompt
    in the log. *)
Lemma quota_error_is_logged :
  @call_view
    (Faulty.raising (mkExn ClientError (u "429 RESOURCE_EXHAUSTED")))
    (analyze_frame
       (Ok (Sample.body (PStr Sample.png_data_url) (PStr (u "red cup")))))
    startup
  = (Responded
       (error_response (u "Gemini API Error: 429 RESOURCE_EXHAUSTED") 500),
     mkProcess (Some tt) [api_error_line (u "red cup")]).
Proof.
  assert (Hraises :
            @try_body_raises
              (Faulty.raising
                 (mkExn ClientError (u "429 RESOURCE_EXHAUSTED")))
              tt (prompt_text (strip (u "red cup")))
              (Fake.mkImage (u "RGB") Fake.png_signature) None
              (mkExn ClientError (u "429 RESOURCE_EXHAUSTED")))
    by (apply CallRaises; reflexivity).
  pose proof (@api_error_is_500_and_logged
                (Faulty.raising
                   (mkExn ClientError (u "429 RESOURCE_EXHAUSTED")))
                startup _ _ _ _ _ _
                (sample_model_called _ (u "red cup")) Hraises
                eq_refl) as H.
  by_evaluation H.
Defined.

(** A reply without text: [json.loads(None)] raises [TypeError], which
    the last clause answers. *)
Lemma reply_without_text_is_500 :
  @call_view Faulty.silent
    (analyze_frame
       (Ok (Sample.body (PStr Sample.png_data_url) (PStr (u "red cup")))))
    startup
  = (Responded
       (error_response
          (u "An unexpected error occurred: the JSON object must be str, bytes or bytearray, not NoneType")
          500),
     startup).
Proof.
  assert (Hraises :
            @try_body_raises Faulty.silent
              tt (prompt_text (strip (u "red cup")))
              (Fake.mkImage (u "RGB") Fake.png_signature) (Some None)
              (mkExn TypeError
                 (u "the JSON object must be str, bytes or bytearray, not NoneType")))
    by (apply (@ParseRaises Faulty.silent _ _ _ None None); reflexivity).
  pose proof (@unexpected_error_is_500 Faulty.silent
                startup _ _ _ _ _ _
                (sample_model_called _ (u "red cup")) Hraises
                eq_refl eq_refl) as H.
  by_evaluation H.
Defined.

(** The model call itself fails with a [JSONDecodeError]: the clause
    prints its first line and fails on [response.text]. *)
Lemma json_error_of_the_call_escapes :
  @call_view
    (Faulty.raising
       (mkExn JSONDecodeError
              (u "Expecting value: line 1 column 1 (char 0)")))
    (analyze_frame
       (Ok (Sample.body (PStr Sample.png_data_url) (PStr (u "red cup")))))
    startup
  = (Escaped
       (mkExn UnboundLocalError
          (u "cannot access local variable 'response' where it is not associated with a value")),
     mkProcess (Some tt)
       [u "JSON Decode Error: Expecting value: line 1 column 1 (char 0)"]).
Proof.
  assert (Hcall :
            @generate_content
              (Faulty.raising
                 (mkExn JSONDecodeError
                        (u "Expecting value: line 1 column 1 (char 0)")))
              tt MODEL_NAME (prompt_text (strip (u "red cup")))
              (Fake.mkImage (u "RGB") Fake.png_signature)
              (u "application/json")
            = Raise (mkExn JSONDecodeError
                       (u "Expecting value: line 1 column 1 (char 0)")))
    by reflexivity.
  pose proof (@json_error_in_call_escapes
                (Faulty.raising
                   (mkExn JSONDecodeError
                          (u "Expecting value: line 1 column 1 (char 0)")))
                startup _ _ _ _ _
                (sample_model_called _ (u "red cup"))
                Hcall eq_refl) as H.
  by_evaluation H.
Defined.

(** The 200 of the sample request with the reply [[]] has the cause the
    view gives. *)
Lemma empty_list_reply_came_from_model :
  exists command response text v,
    @model_replied (Sample.service (u "[]")) startup
      (Ok (Sample.body (PStr Sample.png_data_url) (PStr (u "red cup"))))
      command response
    /\ @response_text (Sample.service (u "[]")) response = Ok text
    /\ @json_loads (Sample.service (u "[]")) text = Ok v
    /\ success_body (PList []) (u "red cup") = success_body v command.
Proof.
  assert (Hrun : @call_view (Sample.service (u "[]"))
                   (analyze_frame
                      (Ok (Sample.body (PStr Sample.png_data_url)
                                       (PStr (u "red cup")))))
                   startup
                 = (Responded
                      (mkResponse
                         (success_body (PList []) (u "red cup")) 200),
                    startup))
    by (vm_compute; reflexivity).
  exact (proj2 (@success_means_model_replied
                  (Sample.service (u "[]")) _ _ _ _ Hrun)).
Defined.

(** With a model that always replies, the sample request is answered. *)
Lemma sample_request_is_answered :
  exists r w',
    @call_view (Sample.service (u "[]"))
      (analyze_frame
         (Ok (PDict [(u "image", PStr Sample.png_data_url);
                     (u "command", PStr (u " red cup "))])))
      startup
    = (Responded r, w')
    /\ ((exists v, r = mkResponse (success_body v (strip (u " red cup "))) 200)
        \/ (exists m code,
              (code = 400 \/ code = 500)%Z /\ r = error_response m code)).
Proof.
  apply (@well_formed_request_is_answered (Sample.service (u "[]")) startup
           [(u "image", PStr Sample.png_data_url);
            (u "command", PStr (u " red cup "))]
           (u " red cup ") eq_refl).
  - intros cl model prompt img mime e H. discriminate H.
  - intros response e H. discriminate H.
Defined.


(** The sample request with a reply that is not JSON. *)
Lemma refusal_prints_two_lines :
  exists lines,
    snd (@call_view (Sample.service (u "sorry"))
           (analyze_frame
              (Ok (Sample.body (PStr Sample.png_data_url)
                               (PStr (u "red cup")))))
           startup)
    = mkProcess (client (@startup (Sample.service (u "sorry"))))
                (stdout (@startup (Sample.service (u "sorry"))) ++ lines)
    /\ (List.length lines <= 2)%nat
    /\ (forall r,
           fst (@call_view (Sample.service (u "sorry"))
                  (analyze_frame
                     (Ok (Sample.body (PStr Sample.png_data_url)
                                      (PStr (u "red cup")))))
                  startup)
           = Responded r ->
           status r <> 500%Z -> lines = []).
Proof.
  exact (@at_most_two_lines_printed (Sample.service (u "sorry")) startup
           (Ok (Sample.body (PStr Sample.png_data_url)
                            (PStr (u "red cup"))))).
Defined.

(** A command of blanks and no command at all are the same request. *)
Lemma blank_command_is_no_command :
  @call_view (Sample.service (u "[]"))
    (analyze_frame
       (Ok (PDict [(u "image", PStr Sample.png_data_url);
                   (u "command", PStr (u "   "))])))
    startup
  = @call_view (Sample.service (u "[]"))
      (analyze_frame (Ok (PDict [(u "image", PStr Sample.png_data_url)])))
      startup.
Proof.
  exact (@command_matters_only_stripped (Sample.service (u "[]")) startup
           [(u "image", PStr Sample.png_data_url);
            (u "command", PStr (u "   "))]
           [(u "image", PStr Sample.png_data_url)]
           (u "   ") [] eq_refl eq_refl eq_refl eq_refl).
Defined.

(** A body with a further key, its entries in another order. *)
Lemma session_key_is_ignored :
  @call_view (Sample.service (u "[]"))
    (analyze_frame
       (Ok (PDict [(u "session", PInt 7);
                   (u "command", PStr (u "red cup"));
                   (u "image", PStr Sample.png_data_url)])))
    startup
  = @call_view (Sample.service (u "[]"))
      (analyze_frame
         (Ok (PDict [(u "image", PStr Sample.png_data_url);
                     (u "command", PStr (u "red cup"))])))
      startup.
Proof.
  exact (@other_fields_ignored (Sample.service (u "[]")) startup
           [(u "session", PInt 7);
            (u "command", PStr (u "red cup"));
            (u "image", PStr Sample.png_data_url)]
           [(u "image", PStr Sample.png_data_url);
            (u "command", PStr (u "red cup"))]
           eq_refl eq_refl).
Defined.

(** The command [ red cup ] comes back without its blanks. *)
Lemma padded_command_echo_is_trimmed :
  exists v command,
    success_body (PList []) (u "red cup") = success_body v command
    /\ trimmed command = true.
Proof.
  assert (Hrun : @call_view (Sample.service (u "[]"))
                   (analyze_frame
                      (Ok (Sample.body (PStr Sample.png_data_url)
                                       (PStr (u " red cup ")))))
                   startup
                 = (Responded
                      (mkResponse
                         (success_body (PList []) (u "red cup")) 200),
                    startup))
    by (vm_compute; reflexivity).
  exact (@echoed_command_is_trimmed (Sample.service (u "[]")) _ _ _ _ Hrun).
Defined.

(** Two commands, two prompts. *)
Lemma red_and_blue_prompts_differ :
  prompt_text (u "red cup") <> prompt_text (u "blue cup").
Proof.
  apply (prompt_text_injective (u "red cup") (u "blue cup")).
  intros H. vm_compute in H. discriminate H.
Defined.

(** Without the API key: the page, the 500, the page. *)
Lemma no_key_page_still_served :
  @serve Sample.service_without_key startup
    [GET_index; POST_analyze_frame (Ok (PDict [])); GET_index]
  = (map (@outcome_without_client Sample.service_without_key)
         [GET_index; POST_analyze_frame (Ok (PDict [])); GET_index],
     startup).
Proof.
  exact (@without_client_page_still_served Sample.service_without_key
           (mkExn ValueError (u "Missing key inputs argument!"))
           [GET_index; POST_analyze_frame (Ok (PDict [])); GET_index]
           eq_refl).
Defined.
